(** * hear-eval-kit: the Speech Commands pre-processing pipeline

    A shallow embedding of [heareval/tasks/speech_commands.py]: the slicing of
    background recordings into one-second silence clips
    ([GenerateTrainDataset.run]), the train/valid/test partition
    ([ExtractMetadata.get_split_paths]), and the per-row slug, subsample key
    and label ([slugify_file_name], [get_subsample_key], [apply_label]); and
    of [heareval/gpu_max_mem.py], the running maximum of the GPU memory in
    use ([reset], [measure]).

    Python values are modelled as follows: [int] is [Z]; [str] is [string];
    a [PosixPath] is the list of its parts; a list is a [list]; a [set] is a
    [gset]; an exception is the [Raise] case of [result]; the working
    directory a stage writes to is an explicit state; a [float] that holds a
    count of bytes scaled by a power of two is the rational it stands for. *)

From Stdlib Require Import ZArith Lia DecimalString Ascii String.
From Stdlib Require QArith.
From stdpp Require Import base gmap sets list strings.

Local Open Scope Z_scope.

(** ** Python built-ins used by the pipeline *)

Module Py.

(** The exceptions the modelled code can raise. *)
Inductive exn : Type :=
| AssertionError
| ValueError
| TypeError
| FileNotFoundError
| IsADirectoryError.

(** The outcome of a call that returns a value or raises. *)
Inductive result (A : Type) : Type :=
| Ok (a : A)
| Raise (e : exn).
Arguments Ok {A} a.
Arguments Raise {A} e.

Definition bind {A B : Type} (m : result A) (k : A → result B) : result B :=
  match m with
  | Ok a => k a
  | Raise e => Raise e
  end.

(** [for x in xs: body], where the body may raise: the loop stops at the
    first exception. *)
Fixpoint mapM {A B : Type} (f : A → result B) (xs : list A) : result (list B) :=
  match xs with
  | [] => Ok []
  | x :: xs' =>
      bind (f x) (fun y => bind (mapM f xs') (fun ys => Ok (y :: ys)))
  end.

(** *** [range(start, stop, step)] *)

(** The ascending iteration: [i] is yielded while [i < stop].  The counter
    bounds the number of iterations; [stop - start] of them always suffice
    because [step >= 1] (see [range_loop_spec]). *)
Fixpoint range_loop (n : nat) (i stop step : Z) : list Z :=
  match n with
  | O => []
  | S n' => if i <? stop then i :: range_loop n' (i + step) stop step else []
  end.

(** The descending iteration, for a negative step. *)
Fixpoint range_loop_down (n : nat) (i stop step : Z) : list Z :=
  match n with
  | O => []
  | S n' => if stop <? i then i :: range_loop_down n' (i + step) stop step else []
  end.

(** [range] raises [ValueError] on a zero step. *)
Definition range (start stop step : Z) : result (list Z) :=
  if step =? 0 then Raise ValueError
  else if 0 <? step then Ok (range_loop (Z.to_nat (stop - start)) start stop step)
  else Ok (range_loop_down (Z.to_nat (start - stop)) start stop step).

(** *** Sequences: [len] and [xs[a:b]] *)

Definition len {A : Type} (xs : list A) : Z := Z.of_nat (length xs).

(** A slice bound is clipped to [0 .. len]; a negative bound counts from the
    end. *)
Definition clip (n i : Z) : Z :=
  if i <? 0 then Z.max 0 (i + n) else Z.min i n.

Definition slice {A : Type} (xs : list A) (a b : Z) : list A :=
  let lo := clip (len xs) a in
  let hi := clip (len xs) b in
  take (Z.to_nat (hi - lo)) (drop (Z.to_nat lo) xs).

(** *** Strings *)

(** [str(n)] / [f"{n}"] for an [int]. *)
Definition str_of_int (n : Z) : string := NilZero.string_of_int (Z.to_int n).

Definition slen (s : string) : Z := Z.of_nat (String.length s).

Fixpoint str_take (n : nat) (s : string) : string :=
  match n, s with
  | S n', String c s' => String c (str_take n' s')
  | _, _ => ""
  end.

Fixpoint str_drop (n : nat) (s : string) : string :=
  match n, s with
  | S n', String _ s' => str_drop n' s'
  | _, _ => s
  end.

(** [s[:i]] and [s[i:]] for [i >= 0]: every caller below passes an index
    it has checked to be non-negative ([rfind + 1], or an [rfind] that is
    greater than another). *)
Definition slice_to (s : string) (i : Z) : string := str_take (Z.to_nat i) s.
Definition slice_from (s : string) (i : Z) : string := str_drop (Z.to_nat i) s.

(** [s.rfind(c)] for a one-character [c]: the highest index of [c] in [s],
    or [-1]. *)
Fixpoint rfind (c : ascii) (s : string) : Z :=
  match s with
  | "" => -1
  | String a s' =>
      let r := rfind c s' in
      if 0 <=? r then r + 1 else if Ascii.eqb a c then 0 else -1
  end.

(** [c in s] for a one-character [c]. *)
Fixpoint contains (c : ascii) (s : string) : bool :=
  match s with
  | "" => false
  | String a s' => Ascii.eqb a c || contains c s'
  end.

(** [s == c * len(s)]. *)
Fixpoint all_char (c : ascii) (s : string) : bool :=
  match s with
  | "" => true
  | String a s' => Ascii.eqb a c && all_char c s'
  end.

(** [s.lstrip(c)] and [s.rstrip(c)] and [s.strip(c)] for a one-character
    [c]. *)
Fixpoint lstrip (c : ascii) (s : string) : string :=
  match s with
  | "" => ""
  | String a s' => if Ascii.eqb a c then lstrip c s' else s
  end.

Fixpoint rstrip (c : ascii) (s : string) : string :=
  match s with
  | "" => ""
  | String a s' =>
      match rstrip c s' with
      | "" => if Ascii.eqb a c then "" else String a ""
      | r => String a r
      end
  end.

Definition strip (c : ascii) (s : string) : string := rstrip c (lstrip c s).

(** [s.startswith(t)] and [s.endswith(t)]. *)
Fixpoint startswith (s t : string) {struct t} : bool :=
  match t with
  | "" => true
  | String b t' =>
      match s with
      | "" => false
      | String a s' => Ascii.eqb a b && startswith s' t'
      end
  end.

Fixpoint endswith (s t : string) : bool :=
  String.eqb s t
  || match s with
     | "" => false
     | String _ s' => endswith s' t
     end.

(** [t in s]. *)
Fixpoint substring_in (t s : string) : bool :=
  startswith s t
  || match s with
     | "" => false
     | String _ s' => substring_in t s'
     end.

(** [all(p(c) for c in s)]. *)
Fixpoint str_forall (p : ascii → bool) (s : string) : bool :=
  match s with
  | "" => true
  | String a s' => p a && str_forall p s'
  end.

(** [s.split(c)] for a one-character separator: always at least one field. *)
Fixpoint split (c : ascii) (s : string) : list string :=
  match s with
  | "" => [""]
  | String a s' =>
      if Ascii.eqb a c then "" :: split c s'
      else match split c s' with
           | [] => [String a ""]
           | w :: ws => String a w :: ws
           end
  end.

(** [str.isspace] on the characters below 256. *)
Definition is_space (a : ascii) : bool :=
  let n := nat_of_ascii a in
  (9 <=? n)%nat && (n <=? 13)%nat || (28 <=? n)%nat && (n <=? 32)%nat
  || (n =? 133)%nat || (n =? 160)%nat.

Fixpoint lstrip_space (s : string) : string :=
  match s with
  | "" => ""
  | String a s' => if is_space a then lstrip_space s' else s
  end.

Fixpoint rstrip_space (s : string) : string :=
  match s with
  | "" => ""
  | String a s' =>
      match rstrip_space s' with
      | "" => if is_space a then "" else String a ""
      | r => String a r
      end
  end.

(** [s.strip()]. *)
Definition strip_space (s : string) : string := rstrip_space (lstrip_space s).

(** The line boundaries of [str.splitlines] below 256: LF, VT, FF, CR, FS,
    GS, RS and NEL; CR LF counts as one. *)
Definition is_linebreak (a : ascii) : bool :=
  let n := nat_of_ascii a in
  (10 <=? n)%nat && (n <=? 13)%nat || (28 <=? n)%nat && (n <=? 30)%nat
  || (n =? 133)%nat.

(** [s.splitlines()]. *)
Fixpoint splitlines (s : string) : list string :=
  match s with
  | "" => []
  | String a s' =>
      if is_linebreak a then
        match s' with
        | String b s'' =>
            if Ascii.eqb a "013" && Ascii.eqb b "010" then "" :: splitlines s''
            else "" :: splitlines s'
        | "" => [""]
        end
      else match splitlines s' with
           | [] => [String a ""]
           | l :: ls => String a l :: ls
           end
  end.

(** [s.lower()] on ASCII text. *)
Definition lower_char (a : ascii) : ascii :=
  let n := nat_of_ascii a in
  if (65 <=? n)%nat && (n <=? 90)%nat then ascii_of_nat (n + 32) else a.

Fixpoint lower (s : string) : string :=
  match s with
  | "" => ""
  | String a s' => String (lower_char a) (lower s')
  end.

End Py.

Export Py.

(** ** [os.path] on POSIX ([posixpath], [genericpath]) *)

Module OsPath.

(** [os.path.basename(p)]: [i = p.rfind("/") + 1; return p[i:]]. *)
Definition basename (p : string) : string :=
  let i := rfind "/" p + 1 in
  slice_from p i.

(** [os.path.dirname(p)]:
    [head = p[:i]; if head and head != "/" * len(head): head = head.rstrip("/")]. *)
Definition dirname (p : string) : string :=
  let i := rfind "/" p + 1 in
  let head := slice_to p i in
  if negb (String.eqb head "") && negb (all_char "/" head) then rstrip "/" head
  else head.

(** The [while filenameIndex < dotIndex] loop of [genericpath._splitext]:
    the extension is split off at the first character of the file name that
    is not a dot; [n] is the number of iterations left. *)
Fixpoint splitext_loop (n : nat) (p : string) (filenameIndex dotIndex : Z)
  : string * string :=
  match n with
  | O => (p, "")
  | S n' =>
      match String.get (Z.to_nat filenameIndex) p with
      | Some c =>
          if Ascii.eqb c "." then splitext_loop n' p (filenameIndex + 1) dotIndex
          else (slice_to p dotIndex, slice_from p dotIndex)
      | None => (slice_to p dotIndex, slice_from p dotIndex)
      end
  end.

(** [os.path.splitext(p)]. *)
Definition splitext (p : string) : string * string :=
  let sepIndex := rfind "/" p in
  let dotIndex := rfind "." p in
  if sepIndex <? dotIndex
  then splitext_loop (Z.to_nat (dotIndex - (sepIndex + 1))) p (sepIndex + 1) dotIndex
  else (p, "").

(** One step of the loop of [os.path.join(a, *p)]. *)
Definition join_step (path b : string) : string :=
  if startswith b "/" then b
  else if String.eqb path "" || endswith path "/" then path +:+ b
  else path +:+ "/" +:+ b.

Definition join (a : string) (p : list string) : string :=
  fold_left join_step p a.

End OsPath.

(** ** [pathlib.PurePosixPath] *)

Module Pathlib.

(** A path object is the tuple of its parts, as [PurePath.parts] shows it:
    the root, when there is one, comes first. *)
Definition path : Type := list string.

(** [_PosixFlavour.splitroot]: exactly two leading slashes are kept as the
    root ["//"], any other number collapses to ["/"]. *)
Definition splitroot (part : string) : string * string :=
  if startswith part "/" then
    let stripped_part := lstrip "/" part in
    if slen part - slen stripped_part =? 2 then ("//", stripped_part)
    else ("/", stripped_part)
  else ("", part).

(** The components kept by [parse_parts]: [if x and x != "."]. *)
Definition kept (x : string) : bool :=
  negb (String.eqb x "") && negb (String.eqb x ".").

(** [PurePosixPath(s).parts] for a string [s]. *)
Definition parts (s : string) : path :=
  let '(root, rel) := splitroot s in
  let comps := filter (fun x => kept x = true) (split "/" rel) in
  if String.eqb root "" then comps else root :: comps.

(** ["/".join(xs)]. *)
Fixpoint join_sep (xs : list string) : string :=
  match xs with
  | [] => ""
  | [x] => x
  | x :: xs' => x +:+ "/" +:+ join_sep xs'
  end.

Definition is_root (x : string) : bool := startswith x "/".

(** [str(p)] ([_format_parsed_parts], and ["."] for the empty path). *)
Definition str (p : path) : string :=
  match p with
  | [] => "."
  | x :: xs => if is_root x then x +:+ join_sep xs else join_sep p
  end.

(** [p.joinpath(name)] / [p / name] for a relative [name]. *)
Definition joinpath (p : path) (name : string) : path := p ++ parts name.

(** [xs[-2:]]. *)
Definition last2 {A : Type} (xs : list A) : list A :=
  drop (length xs - 2) xs.

End Pathlib.

(** ** [slugify.slugify] (python-slugify) with its default arguments *)

Module Slugify.

(** The library's steps on ASCII text that holds no character reference
    (no [&]); on such text its transliteration ([unidecode]), the decoding
    of [&name;], [&#n;] and [&#xh;] references and the NFKD normalisation,
    which come between the first and the second step below, change nothing. *)

Definition is_quote (a : ascii) : bool := Ascii.eqb a "'".
Definition is_dash (a : ascii) : bool := Ascii.eqb a "-".
Definition is_comma (a : ascii) : bool := Ascii.eqb a ",".

(** [\d] on ASCII. *)
Definition is_digit (a : ascii) : bool :=
  let n := nat_of_ascii a in (48 <=? n)%nat && (n <=? 57)%nat.

Definition is_lower (a : ascii) : bool :=
  let n := nat_of_ascii a in (97 <=? n)%nat && (n <=? 122)%nat.

(** The class [[-a-z0-9]], whose complement [ALLOWED_CHARS_PATTERN]
    replaces. *)
Definition allowed (a : ascii) : bool := is_dash a || is_lower a || is_digit a.

(** [re.sub("[cls]+", "-", s)]: every maximal run of characters of the
    class becomes one dash; [in_run] says that the previous character was
    in the class. *)
Fixpoint sub_runs (cls : ascii → bool) (in_run : bool) (s : string) : string :=
  match s with
  | "" => ""
  | String a s' =>
      if cls a then
        if in_run then sub_runs cls true s'
        else String "-" (sub_runs cls true s')
      else String a (sub_runs cls false s')
  end.

(** [re.sub("[cls]+", "", s)]. *)
Fixpoint remove (cls : ascii → bool) (s : string) : string :=
  match s with
  | "" => ""
  | String a s' => if cls a then remove cls s' else String a (remove cls s')
  end.

(** [NUMBERS_PATTERN.sub("", s)] with the pattern [(?<=\d),(?=\d)]: a comma
    between two digits is dropped; [prev] says that the previous character
    of the text was a digit. *)
Fixpoint cleanup_numbers (prev : bool) (s : string) : string :=
  match s with
  | "" => ""
  | String a s' =>
      let next := match s' with String b _ => is_digit b | "" => false end in
      if is_comma a && prev && next then cleanup_numbers false s'
      else String a (cleanup_numbers (is_digit a) s')
  end.

Definition slugify (text : string) : string :=
  (* replace quotes with dashes - pre-process *)
  let text := sub_runs is_quote false text in
  (* make the text lowercase *)
  let text := lower text in
  (* remove generated quotes - post-process *)
  let text := remove is_quote text in
  (* cleanup numbers *)
  let text := cleanup_numbers false text in
  (* replace all other unwanted characters *)
  let text := sub_runs (fun a => negb (allowed a)) false text in
  (* remove redundant dashes, strip *)
  strip "-" (sub_runs is_dash false text).

End Slugify.

(** ** [re.sub(r"-nohash-.*$", "", s)] *)

Module Re.

Definition marker : string := "-nohash-".

(** [.*$] tried at the start of [s]: [.] matches anything but a line feed
    and [$] matches at the end of the text or just before a line feed that
    ends it.  The greedy [.*] runs to the first line feed; a shorter run
    cannot end where [$] holds.  The result is what is left of the text
    after the match. *)
Fixpoint dotstar_eol (s : string) : option string :=
  match s with
  | "" => Some ""
  | String a s' =>
      if Ascii.eqb a "010" then
        match s' with
        | "" => Some s
        | _ => None
        end
      else dotstar_eol s'
  end.

(** The leftmost match is replaced by the empty string.  What follows a
    match is empty or a single line feed, where the pattern cannot match
    again, so one replacement is all [re.sub] makes. *)
Fixpoint sub_nohash (s : string) : string :=
  match s with
  | "" => ""
  | String a s' =>
      if startswith s marker then
        match dotstar_eol (str_drop (String.length marker) s) with
        | Some rest => rest
        | None => String a (sub_nohash s')
        end
      else String a (sub_nohash s')
  end.

End Re.

(** ** [heareval/tasks/speech_commands.py] *)

Definition WORDS : list string :=
  ["down"; "go"; "left"; "no"; "off"; "on"; "right"; "stop"; "up"; "yes"].
Definition BACKGROUND_NOISE : string := "_background_noise_".
Definition UNKNOWN : string := "_unknown_".
Definition SILENCE : string := "_silence_".

(** *** Monads: a call that may raise, and a stage that writes to its
    working directory and may raise part-way *)

#[export] Instance result_ret : MRet result := @Ok.
#[export] Instance result_bind : MBind result := fun A B k m => Py.bind m k.

(** [stage S A]: from a state [S], the outcome and the state left behind;
    what was written before an exception stays written. *)
Definition stage (S A : Type) : Type := S → result A * S.

#[export] Instance stage_ret {S : Type} : MRet (stage S) := fun A a st => (Ok a, st).
#[export] Instance stage_bind {S : Type} : MBind (stage S) := fun A B k m st =>
  match m st with
  | (Ok a, st') => k a st'
  | (Raise e, st') => (Raise e, st')
  end.

Definition raise {S A : Type} (e : exn) : stage S A := fun st => (Raise e, st).
Definition modify {S : Type} (f : S → S) : stage S unit := fun st => (Ok tt, f st).
Definition lift {S A : Type} (r : result A) : stage S A := fun st => (r, st).

(** [assert cond]. *)
Definition assert_ {S : Type} (cond : bool) : stage S unit :=
  if cond then mret tt else raise AssertionError.

(** [for x in xs: body x]. *)
Fixpoint for_each {S A : Type} (xs : list A) (body : A → stage S unit) : stage S unit :=
  match xs with
  | [] => mret tt
  | x :: xs' => body x ;; for_each xs' body
  end.

(** *** The glob patterns of the file *)

(** [*.wav]. *)
Definition glob_wav (name : string) : bool := endswith name ".wav".

(** [[!_]*]: a first character that is not an underscore. *)
Definition glob_not_underscore (name : string) : bool :=
  match name with
  | String c _ => negb (Ascii.eqb c "_")
  | "" => false
  end.

(** [running_tap*.wav]. *)
Definition glob_running_tap_wav (name : string) : bool :=
  startswith name "running_tap" && endswith name ".wav"
  && (String.length "running_tap" + String.length ".wav" <=? String.length name)%nat.

(** A directory seen two levels deep: the [(folder, file)] pairs under it,
    each once, in the order the file system lists them. *)
Definition tree : Type := list (string * string).

(** [base.glob("<folder pattern>/<file pattern>")]: the matching paths, each
    [base / folder / file]. *)
Definition glob (base : Pathlib.path) (folder_pat file_pat : string → bool) (t : tree)
  : list Pathlib.path :=
  map (fun '(d, f) => base ++ [d; f])
      (filter (fun '(d, f) => folder_pat d && file_pat f = true) t).

(** *** [GenerateTrainDataset] *)

Section GenerateTrainDataset.

(** One audio frame (a float, or a row of floats for several channels): the
    stage only moves frames around. *)
Context {sample : Type}.

(** What [sf.read] returns: the frames and the sample rate. *)
Record sound : Type := Sound { frames : list sample; samplerate : Z }.

(** The extracted training corpus, as far as [run] looks at it: the files of
    its [train/_background_noise_] folder with their decoded contents, and
    the entries of [train/] with whether each is a directory. *)
Record train_corpus : Type := TrainCorpus {
  background_files : list (string * sound);
  train_entries : list (string * bool);
}.

(** The working directory of the stage: the directories made, the audio files
    written, the symbolic links (link path to target), and the completion
    mark. *)
Record workdir_state : Type := WorkdirState {
  dirs : gset string;
  files : gmap string sound;
  links : gmap string string;
  complete : bool;
}.

(** [os.makedirs(d, exist_ok=True)]. *)
Definition makedirs (d : string) : stage workdir_state unit :=
  modify (fun st => WorkdirState ({[d]} ∪ dirs st) (files st) (links st) (complete st)).

(** [sf.write(filename, audio_segment, sr)]. *)
Definition sf_write (filename : string) (segment : list sample) (sr : Z)
  : stage workdir_state unit :=
  modify (fun st =>
    WorkdirState (dirs st) (<[filename := Sound segment sr]> (files st)) (links st)
                 (complete st)).

(** [link.unlink(missing_ok=True); link.symlink_to(target)]: unlinking a
    directory raises. *)
Definition relink (link target : string) : stage workdir_state unit :=
  fun st =>
    if decide (link ∈ dirs st) then (Raise IsADirectoryError, st)
    else (Ok tt, WorkdirState (dirs st) (delete link (files st))
                              (<[link := target]> (links st)) (complete st)).

(** Modelled from the spec: [WorkTask.mark_complete] is not among the
    sources; the spec describes it as the signal, given on finish, by which
    the orchestrator takes the stage as done. *)
Definition mark_complete : stage workdir_state unit :=
  modify (fun st => WorkdirState (dirs st) (files st) (links st) true).

(** The body of [for start in range(0, len(audio) - sr, sr // 2)]
    (lines 74-77). *)
Definition write_segment (silence_dir name ext : string) (audio : list sample) (sr : Z)
    (start : Z) : stage workdir_state unit :=
  let audio_segment := slice audio start (start + sr) in
  let filename := name +:+ "-" +:+ str_of_int start +:+ ext in
  let filename := OsPath.join silence_dir [filename] in
  sf_write filename audio_segment sr.

(** The offsets of the clips cut from one recording (line 73). *)
Definition clip_starts (audio : list sample) (sr : Z) : result (list Z) :=
  range 0 (len audio - sr) (sr / 2).

(** The body of [for audio_path in tqdm(background_audio)] (lines 68-77). *)
Definition slice_recording (silence_dir : string) (audio_path : Pathlib.path)
    (snd : sound) : stage workdir_state unit :=
  let audio := frames snd in
  let sr := samplerate snd in
  let basename := OsPath.basename (Pathlib.str audio_path) in
  let '(name, ext) := OsPath.splitext basename in
  starts ← lift (clip_starts audio sr);
  for_each starts (write_segment silence_dir name ext audio sr).

(** The body of [for file_obj in train_path.iterdir()] (lines 82-91); the
    target of a link is the path of the entry (which the code makes
    absolute). *)
Definition link_entry (workdir : string) (train_path : Pathlib.path)
    (file_obj : string * bool) : stage workdir_state unit :=
  let '(name, is_dir) := file_obj in
  let absolute := Pathlib.str (train_path ++ [name]) in
  (if is_dir && negb (String.eqb name BACKGROUND_NOISE)
   then relink (OsPath.join workdir [name]) absolute
   else mret tt) ;;
  (if String.eqb name "testing_list.txt" || String.eqb name "validation_list.txt"
   then relink (OsPath.join workdir [name]) absolute
   else mret tt).

(** [train_path.glob("_background_noise_/*.wav")], each path with what
    [sf.read] returns for it. *)
Definition glob_background (train_path : Pathlib.path) (corpus : train_corpus)
  : list (Pathlib.path * sound) :=
  map (fun '(f, snd) => (train_path ++ [BACKGROUND_NOISE; f], snd))
      (filter (fun '(f, _) => glob_wav f = true) (background_files corpus)).

(** [GenerateTrainDataset.run]: [workdir] is [self.workdir] and
    [train_workdir] the working directory of the extracted corpus. *)
Definition run (workdir train_workdir : string) (corpus : train_corpus)
  : stage workdir_state unit :=
  let train_path := Pathlib.joinpath (Pathlib.parts train_workdir) "train" in
  let background_audio := glob_background train_path corpus in
  assert_ (0 <? len background_audio) ;;
  let silence_dir := OsPath.join workdir [SILENCE] in
  makedirs silence_dir ;;
  for_each background_audio (fun '(audio_path, snd) =>
    slice_recording silence_dir audio_path snd) ;;
  for_each (train_entries corpus) (link_entry workdir train_path) ;;
  mark_complete.

End GenerateTrainDataset.

Arguments sound : clear implicits.
Arguments train_corpus : clear implicits.
Arguments workdir_state : clear implicits.

(** *** [ExtractMetadata] *)

(** The values of the [relpath] column: [glob] yields path objects and
    [os.path.join] yields strings, and a string never equals a path
    object. *)
Inductive pyval : Type :=
| Str (s : string)
| PosixPath (p : Pathlib.path).

#[export] Instance pyval_eq_dec : EqDecision pyval.
Proof. solve_decision. Defined.

(** [os.fspath(v)]. *)
Definition fspath (v : pyval) : string :=
  match v with
  | Str s => s
  | PosixPath p => Pathlib.str p
  end.

(** [Path(v)]. *)
Definition Path (v : pyval) : Pathlib.path :=
  match v with
  | Str s => Pathlib.parts s
  | PosixPath p => p
  end.

(** [apply_label] (lines 107-111). *)
Definition apply_label (relative_path : pyval) : string :=
  let label := OsPath.basename (OsPath.dirname (fspath relative_path)) in
  if negb (bool_decide (label ∈ WORDS)) && negb (String.eqb label SILENCE)
  then UNKNOWN
  else label.

(** [slugify_file_name] (lines 114-122): [os.path.join] called with no
    argument, for a path without parts, raises [TypeError]. *)
Definition slugify_file_name (relative_path : pyval) : result string :=
  match Pathlib.last2 (Path relative_path) with
  | [] => Raise TypeError
  | a :: p =>
      let name := fst (OsPath.splitext (OsPath.join a p)) in
      Ok (Slugify.slugify name)
  end.

(** One row of the table [get_split_paths] returns. *)
Record split_row : Type := SplitRow { sr_relpath : pyval; sr_split : string }.

(** [pd.DataFrame(paths, columns=["relpath"]).assign(split=lambda df: name)]. *)
Definition data_frame (paths : list pyval) (name : string) : list split_row :=
  map (fun v => SplitRow v name) paths.

(** [left.merge(right, on="relpath")]: one row for every pair of rows that
    agree on [relpath]. *)
Definition merge (left right : list split_row) : list (pyval * string * string) :=
  l ← left; r ← right;
  if decide (sr_relpath l = sr_relpath r) then [(sr_relpath l, sr_split l, sr_split r)]
  else [].

(** What the stage reads: the two working directories, what lies two levels
    below [<test workdir>/test] and below the train working directory, and
    the text of the two reference lists ([None]: no such file). *)
Record corpus : Type := Corpus {
  test_workdir : string;
  test_tree : tree;
  train_workdir : string;
  train_tree : tree;
  validation_list_txt : option string;
  testing_list_txt : option string;
}.

(** [with open(path, "r") as fp: fp.read()]. *)
Definition read_text (content : option string) : result string :=
  match content with
  | Some text => Ok text
  | None => Raise FileNotFoundError
  end.

Definition any_name (_ : string) : bool := true.

(** The three groups of paths [get_split_paths] builds (lines 144-184), before
    they are put in tables. *)
Record split_paths : Type := SplitPaths {
  test_paths : list pyval;
  validation_rel_paths : list pyval;
  train_rel_paths : list pyval;
}.

(** [fp.read().strip().splitlines()] on a reference list. *)
Definition reference_list (content : option string) : result (list string) :=
  text ← read_text content;
  mret (splitlines (strip_space text)).

(** [train_path] of [get_split_paths]: the working directory of the
    silence-synthesis stage. *)
Definition train_path (c : corpus) : Pathlib.path := Pathlib.parts (train_workdir c).

(** [os.path.join(train_path, p)]. *)
Definition join_train (c : corpus) (p : string) : pyval :=
  Str (OsPath.join (Pathlib.str (train_path c)) [p]).

(** [audio_paths] (lines 170-172):
    [str(p.relative_to(train_path)) for p in train_path.glob("[!_]*/*.wav")]. *)
Definition audio_paths (c : corpus) : list string :=
  map (fun p => Pathlib.str (drop (length (train_path c)) p))
      (glob (train_path c) glob_not_underscore glob_wav (train_tree c)).

(** Lines 144-184.  [list(set(...) - set(...))] is [elements] of a
    difference of [gset]s: every element once, in some order. *)
Definition compute_split_paths (c : corpus) : result split_paths :=
  (* Test files *)
  let test_path := Pathlib.joinpath (Pathlib.parts (test_workdir c)) "test" in
  let test_files := glob test_path any_name glob_wav (test_tree c) in
  (* All silence paths to add to the train and validation *)
  let all_silence := glob (train_path c) (String.eqb SILENCE) glob_wav (train_tree c) in
  (* Validation files *)
  validation_paths ← reference_list (validation_list_txt c);
  let validation_rel_paths := map (join_train c) validation_paths in
  let val_silence :=
    glob (train_path c) (String.eqb SILENCE) glob_running_tap_wav (train_tree c) in
  let validation_rel_paths := validation_rel_paths ++ map PosixPath val_silence in
  (* Train-test files *)
  train_test_paths ← reference_list (testing_list_txt c);
  (* The final train set is all the audio files MINUS the files marked as
     test / validation files *)
  let train_paths : list string :=
    elements ((list_to_set (audio_paths c) : gset string)
              ∖ list_to_set train_test_paths ∖ list_to_set validation_paths) in
  let train_rel_paths := map (join_train c) train_paths in
  (* Training silence is all the generated silence samples minus those
     marked for validation *)
  let train_silence : list Pathlib.path :=
    elements ((list_to_set all_silence : gset Pathlib.path) ∖ list_to_set val_silence) in
  let train_rel_paths := train_rel_paths ++ map PosixPath train_silence in
  mret (SplitPaths (map PosixPath test_files) validation_rel_paths train_rel_paths).

(** [get_split_paths] (lines 137-190). *)
Definition get_split_paths (c : corpus) : result (list split_row) :=
  sp ← compute_split_paths c;
  let test_df := data_frame (test_paths sp) "test" in
  let validation_df := data_frame (validation_rel_paths sp) "valid" in
  let train_df := data_frame (train_rel_paths sp) "train" in
  if len (merge train_df validation_df) =? 0
  then mret (test_df ++ validation_df ++ train_df)
  else Raise AssertionError.

Section SubsampleKey.

(** Modelled from the spec: [luigi_util.filename_to_int_hash] is not among
    the sources.  The spec describes it as "a deterministic string→integer
    function that is NOT seeded per-process".  It is taken as a parameter:
    a function of the text to an [int], with the process that evaluates it
    as an explicit argument so that "not seeded per-process" can be said
    ([unseeded]). *)
Context {process : Type}.
Variable filename_to_int_hash : process → string → Z.


(** [get_subsample_key] (lines 125-135), evaluated in the process [proc]. *)
Definition get_subsample_key (proc : process) (slug : string) : Z * Z :=
  let speaker_hash := filename_to_int_hash proc (Re.sub_nohash slug) in
  let filename_hash := filename_to_int_hash proc slug in
  let subsample_key := (speaker_hash, filename_hash) in
  subsample_key.

(** One row of the table [get_process_metadata] returns. *)
Record meta_row : Type := MetaRow {
  relpath : pyval;
  split : string;
  slug : string;
  subsample_key : Z * Z;
  label : string;
}.

(** [get_process_metadata] (lines 192-199): the three columns are added to
    the rows of [get_split_paths]; a slug that raises ends the call. *)
Definition get_process_metadata (proc : process) (c : corpus) : result (list meta_row) :=
  process_metadata ← get_split_paths c;
  mapM (fun r =>
          s ← slugify_file_name (sr_relpath r);
          mret (MetaRow (sr_relpath r) (sr_split r) s (get_subsample_key proc s)
                        (apply_label (sr_relpath r))))
       process_metadata.

End SubsampleKey.

(** ** [heareval/gpu_max_mem.py] *)

Module GpuMaxMem.

Import QArith_base.

(** What a call of [measure] finds: [torch.cuda.is_available()] and the
    [used] field, a count of bytes, of [nvmlDeviceGetMemoryInfo].  A float
    is modelled by the rational it holds: a count of bytes below [2^53] is
    held exactly, and so are its quotients by 1024. *)
Record device : Type := Device { cuda_is_available : bool; used : Z }.

(** [info.used / 1024 / 1024 / 1024]. *)
Definition memory_used (dev : device) : Q :=
  Qdiv (Qdiv (Qdiv (inject_Z (used dev)) (inject_Z 1024)) (inject_Z 1024)) (inject_Z 1024).

(** [reset], on the global [max_memory_used]. *)
Definition reset (max_memory_used : option Q) : option Q := None.

(** [measure]: the value returned and the global after the call. *)
Definition measure (dev : device) (max_memory_used : option Q) : option Q * option Q :=
  let max_memory_used :=
    if cuda_is_available dev then
      match max_memory_used with
      | None => Some (memory_used dev)
      | Some m =>
          (* memory_used > max_memory_used *)
          if negb (Qle_bool (memory_used dev) m) then Some (memory_used dev) else Some m
      end
    else max_memory_used in
  (max_memory_used, max_memory_used).

(** Calls of [measure] one after the other: the global after the last. *)
Definition measure_all (devs : list device) (max_memory_used : option Q) : option Q :=
  fold_left (fun m dev => (measure dev m).2) devs max_memory_used.

End GpuMaxMem.

(** ** Notions the statements below use *)

(** The parent folder of a path as [apply_label] reads it. *)
Definition immediate_parent (p : string) : string :=
  OsPath.basename (OsPath.dirname p).

(** The labels a row can carry. *)
Definition label_vocabulary : list string := WORDS ++ [UNKNOWN; SILENCE].

(** A name free of the character [c]. *)
Definition free_of (c : ascii) (s : string) : Prop := contains c s = false.

(** A file or folder name as a directory lists it: not empty, no slash. *)
Definition entry_name (s : string) : Prop := s ≠ "" ∧ free_of "/" s.

(** The stem of a file name: no slash, and a first character that is not a
    dot. *)
Definition stem_name (s : string) : Prop :=
  free_of "/" s ∧ ∃ c s', s = String c s' ∧ c ≠ "."%char.

(** An extension: no dot and no slash in it. *)
Definition ext_name (s : string) : Prop := free_of "/" s ∧ free_of "." s.

(** Every folder and file name of a tree is an entry name. *)
Definition tree_names_ok (t : tree) : Prop :=
  Forall (fun '(d, f) => entry_name d ∧ entry_name f) t.

(** The speaker id as the spec words it: everything from the first
    occurrence of the marker onward is stripped. *)
Fixpoint cut_at (m s : string) : string :=
  match s with
  | "" => ""
  | String a s' => if startswith s m then "" else String a (cut_at m s')
  end.

(** A normalised slug: lower-case letters, digits and dashes only, and the
    dash used as a separator (none at either end, none doubled). *)
Definition is_slug (s : string) : bool :=
  str_forall Slugify.allowed s
  && negb (startswith s "-") && negb (endswith s "-")
  && negb (substring_in "--" s).

(** A character of a slug, or a slash. *)
Definition path_char (a : ascii) : bool := Slugify.allowed a || Ascii.eqb a "/".

Section Clips.

Context {sample : Type}.

(** The file a clip is written to (lines 75-76). *)
Definition clip_path (silence_dir name ext : string) (start : Z) : string :=
  OsPath.join silence_dir [name +:+ "-" +:+ str_of_int start +:+ ext].

(** The clips of one recording, as (file, content) pairs in the order they
    are written. *)
Definition clips_of (silence_dir name ext : string) (audio : list sample) (sr : Z)
    (starts : list Z) : list (string * sound sample) :=
  map (fun start => (clip_path silence_dir name ext start,
                     Sound (slice audio start (start + sr)) sr)) starts.

(** Writing the files of a list in order. *)
Definition write_all (fs : gmap string (sound sample)) (clips : list (string * sound sample))
  : gmap string (sound sample) :=
  fold_left (fun fs kv => <[kv.1 := kv.2]> fs) clips fs.

End Clips.





(** Adler-32, an unseeded digest of a text to an integer below [2^32]; it
    stands for the hash where an instance is needed. *)
Definition adler32_step (ab : Z * Z) (c : ascii) : Z * Z :=
  let a := (fst ab + Z.of_nat (nat_of_ascii c)) mod 65521 in
  (a, (snd ab + a) mod 65521).

Definition adler32 (text : string) : Z :=
  let '(a, b) := fold_left adler32_step (list_ascii_of_string text) (1, 0) in
  b * 65536 + a.


(** The three tables put one after the other. *)
Definition split_table (sp : split_paths) : list split_row :=
  data_frame (test_paths sp) "test"
  ++ data_frame (validation_rel_paths sp) "valid"
  ++ data_frame (train_rel_paths sp) "train".

(** No path is both a train and a validation path. *)
Definition train_valid_disjoint (sp : split_paths) : Prop :=
  ∀ v, v ∈ train_rel_paths sp → v ∈ validation_rel_paths sp → False.

(** The row [get_process_metadata] makes of a row of [get_split_paths]. *)
Definition row_of {process : Type} (filename_to_int_hash : process → string → Z)
    (proc : process) (r : split_row) (m : meta_row) : Prop :=
  relpath m = sr_relpath r
  ∧ split m = sr_split r
  ∧ slugify_file_name (sr_relpath r) = Ok (slug m)
  ∧ subsample_key m = get_subsample_key filename_to_int_hash proc (slug m)
  ∧ label m = apply_label (sr_relpath r).

(** *** Inputs the statements are tried on *)


(** A validation list that names one of the train audio files. *)
Definition corpus_listed : corpus :=
  Corpus "/w/test" [("off", "t.wav")]
         "/w/gen" [("off", "a.wav"); ("off", "b.wav"); ("_silence_", "pink_noise-0.wav")]
         (Some "off/a.wav") (Some "").

(** A validation list that names one file twice. *)
Definition corpus_repeated_line : corpus :=
  Corpus "/w/test" [("off", "t.wav")]
         "/w/gen" [("off", "a.wav"); ("off", "b.wav")]
         (Some ("off/a.wav" +:+ String "010" "off/a.wav")) (Some "").

(** Both reference lists in use, a folder that is no target word, and
    silence clips of two recordings. *)
Definition corpus_both_lists : corpus :=
  Corpus "/w/test" [("off", "t.wav"); ("_silence_", "s.wav")]
         "/w/gen" [("off", "a.wav"); ("off", "b.wav"); ("off", "c.wav"); ("bed", "d.wav");
                   ("_silence_", "pink_noise-0.wav"); ("_silence_", "running_tap-0.wav")]
         (Some "off/a.wav") (Some "off/b.wav").

(** ** [run] in closed form

    What the two loops of [run] write, as lists, and the working directory
    they leave; [run_outcome] below shows that [run] computes them. *)

Section RunOutcome.

Context {sample : Type}.

(** The clips lines 68-77 cut from one recording, or the exception of
    [range]. *)
Definition recording_clips (silence_dir : string) (audio_path : Pathlib.path)
    (snd : sound sample) : result (list (string * sound sample)) :=
  let basename := OsPath.basename (Pathlib.str audio_path) in
  starts ← clip_starts (frames snd) (samplerate snd);
  mret (clips_of silence_dir (OsPath.splitext basename).1 (OsPath.splitext basename).2
          (frames snd) (samplerate snd) starts).

(** The clips the first loop of [run] writes, recording after recording,
    and how the loop ends: at the first recording that raises, the later
    ones are not read. *)
Fixpoint clips_written (silence_dir : string) (recs : list (Pathlib.path * sound sample))
  : list (string * sound sample) * result unit :=
  match recs with
  | [] => ([], Ok tt)
  | (audio_path, snd) :: recs' =>
      match recording_clips silence_dir audio_path snd with
      | Raise e => ([], Raise e)
      | Ok clips =>
          let '(more, outcome) := clips_written silence_dir recs' in
          (clips ++ more, outcome)
      end
  end.

(** The links lines 82-91 make for one entry of [train/], as (link, target)
    pairs: none, one, or the same one twice for a directory that has the
    name of a reference list. *)
Definition entry_links (workdir : string) (train_path : Pathlib.path)
    (file_obj : string * bool) : list (string * string) :=
  let '(name, is_dir) := file_obj in
  let link := (OsPath.join workdir [name], Pathlib.str (train_path ++ [name])) in
  (if is_dir && negb (String.eqb name BACKGROUND_NOISE) then [link] else [])
  ++ (if String.eqb name "testing_list.txt" || String.eqb name "validation_list.txt"
      then [link] else []).

(** Removing the files at a list of paths, and setting a list of links, in
    order. *)
Definition unlink_all (fs : gmap string (sound sample)) (paths : list string)
  : gmap string (sound sample) :=
  fold_left (fun fs k => delete k fs) paths fs.

Definition link_all (ls : gmap string string) (pairs : list (string * string))
  : gmap string string :=
  fold_left (fun ls kv => <[kv.1 := kv.2]> ls) pairs ls.

(** The links the second loop of [run] makes out of the (link, target)
    pairs of the entries, and how the loop ends: at the first link that
    falls on one of the directories [ds], which cannot be unlinked. *)
Fixpoint links_made (ds : gset string) (pairs : list (string * string))
  : list (string * string) * result unit :=
  match pairs with
  | [] => ([], Ok tt)
  | (link, target) :: pairs' =>
      if decide (link ∈ ds) then ([], Raise IsADirectoryError)
      else let '(more, outcome) := links_made ds pairs' in
           ((link, target) :: more, outcome)
  end.

(** The working directory [run] leaves when it returns. *)
Definition run_result (workdir train_workdir : string) (corpus : train_corpus sample)
    (st : workdir_state sample) : workdir_state sample :=
  let train_path := Pathlib.joinpath (Pathlib.parts train_workdir) "train" in
  let silence_dir := OsPath.join workdir [SILENCE] in
  let clips := (clips_written silence_dir (glob_background train_path corpus)).1 in
  let pairs := flat_map (entry_links workdir train_path) (train_entries corpus) in
  WorkdirState ({[silence_dir]} ∪ dirs st)
               (unlink_all (write_all (files st) clips) pairs.*1)
               (link_all (links st) pairs)
               true.

(** The conditions under which [run] returns: a recording to slice, for
    each recording a step [sr // 2] that is not zero, and no link to put
    where a directory is. *)
Definition run_returns (workdir train_workdir : string) (corpus : train_corpus sample)
    (st : workdir_state sample) : Prop :=
  let train_path := Pathlib.joinpath (Pathlib.parts train_workdir) "train" in
  let silence_dir := OsPath.join workdir [SILENCE] in
  glob_background train_path corpus ≠ []
  ∧ Forall (fun rec => samplerate rec.2 / 2 ≠ 0) (glob_background train_path corpus)
  ∧ Forall (fun kv => kv.1 ∉ {[silence_dir]} ∪ dirs st)
           (flat_map (entry_links workdir train_path) (train_entries corpus)).

End RunOutcome.

(** * Proofs *)

#[local] Arguments String.append !_ _ / : simpl nomatch.

(** ** The model on small inputs *)

Example range_half_overlap : range 0 10 2 = Ok [0; 2; 4; 6; 8].
Proof. reflexivity. Qed.

Example range_empty : range 0 (-3) 2 = Ok [].
Proof. reflexivity. Qed.

Example range_zero_step : range 0 10 0 = Raise ValueError.
Proof. reflexivity. Qed.

Example slice_window_example : slice [10; 11; 12; 13; 14; 15] 2 5 = [12; 13; 14].
Proof. reflexivity. Qed.

Example basename_example : OsPath.basename "train/_background_noise_/pink_noise.wav" = "pink_noise.wav".
Proof. reflexivity. Qed.

Example dirname_example : OsPath.dirname "w/train/off//a.wav" = "w/train/off".
Proof. reflexivity. Qed.

Example dirname_root : OsPath.dirname "/a.wav" = "/".
Proof. reflexivity. Qed.

Example splitext_example : OsPath.splitext "pink_noise.wav" = ("pink_noise", ".wav").
Proof. reflexivity. Qed.

Example splitext_hidden : OsPath.splitext "v0.02/.hidden" = ("v0.02/.hidden", "").
Proof. reflexivity. Qed.

Example join_example : OsPath.join "/w/gen" ["off/a.wav"] = "/w/gen/off/a.wav".
Proof. reflexivity. Qed.

Example join_absolute : OsPath.join "/w/gen" ["/w/gen/off/a.wav"] = "/w/gen/off/a.wav".
Proof. reflexivity. Qed.

Example parts_example : Pathlib.parts "/w//gen/./off/a.wav" = ["/"; "w"; "gen"; "off"; "a.wav"].
Proof. reflexivity. Qed.

Example parts_empty : Pathlib.parts "" = [].
Proof. reflexivity. Qed.

Example splitlines_example :
  splitlines (strip_space ("off/a.wav" +:+ String "010" ("on/b.wav" +:+ String "010" "")))
  = ["off/a.wav"; "on/b.wav"].
Proof. reflexivity. Qed.

Example slugify_example : Slugify.slugify "  It's 1,000 __Hello__ -- World " = "it-s-1000-hello-world".
Proof. reflexivity. Qed.

Example slugify_file_name_dataset :
  slugify_file_name (Str "/w/gen/bed/0a7c2a8d_nohash_0.wav") = Ok "bed-0a7c2a8d-nohash-0".
Proof. reflexivity. Qed.

Example slugify_file_name_silence :
  slugify_file_name (PosixPath ["/"; "w"; "gen"; "_silence_"; "pink_noise-8000.wav"])
  = Ok "silence-pink-noise-8000".
Proof. reflexivity. Qed.

Example slugify_file_name_no_parts : slugify_file_name (Str "") = Raise TypeError.
Proof. reflexivity. Qed.

Example sub_nohash_example : Re.sub_nohash "bed-0a7c2a8d-nohash-0" = "bed-0a7c2a8d".
Proof. reflexivity. Qed.

Example sub_nohash_first_marker : Re.sub_nohash "a-nohash-b-nohash-c" = "a".
Proof. reflexivity. Qed.

Example apply_label_word : apply_label (Str "/w/gen/off/a.wav") = "off".
Proof. reflexivity. Qed.

Example apply_label_other : apply_label (Str "/w/gen/bed/a.wav") = "_unknown_".
Proof. reflexivity. Qed.

Example apply_label_silence :
  apply_label (PosixPath ["/"; "w"; "gen"; "_silence_"; "pink_noise-0.wav"]) = "_silence_".
Proof. reflexivity. Qed.

Example adler32_example : adler32 "Wikipedia" = 300286872.
Proof. reflexivity. Qed.

Example get_split_paths_example :
  get_split_paths
    (Corpus "/w/test" [("off", "t1.wav"); ("doc", "notes.txt")]
            "/w/gen"
            [("off", "a.wav"); ("off", "b.wav"); ("on", "c.wav");
             ("_silence_", "running_tap-0.wav"); ("_silence_", "pink_noise-0.wav")]
            (Some "off/a.wav") (Some "on/c.wav"))
  = Ok [SplitRow (PosixPath ["/"; "w"; "test"; "test"; "off"; "t1.wav"]) "test";
        SplitRow (Str "/w/gen/off/a.wav") "valid";
        SplitRow (PosixPath ["/"; "w"; "gen"; "_silence_"; "running_tap-0.wav"]) "valid";
        SplitRow (Str "/w/gen/off/b.wav") "train";
        SplitRow (PosixPath ["/"; "w"; "gen"; "_silence_"; "pink_noise-0.wav"]) "train"].
Proof. vm_compute. reflexivity. Qed.

Example get_split_paths_no_list :
  get_split_paths (Corpus "/w/test" [] "/w/gen" [] None (Some "")) = Raise FileNotFoundError.
Proof. reflexivity. Qed.

(** ** Strings and paths *)

Section Strings.

Lemma append_nil_r (s : string) : s +:+ "" = s.
Proof. induction s; simpl; congruence. Qed.

Lemma append_assoc (a b c : string) : (a +:+ b) +:+ c = a +:+ b +:+ c.
Proof. induction a; simpl; congruence. Qed.

Lemma append_snoc (a b : string) (c : ascii) :
  a +:+ String c b = (a +:+ String c "") +:+ b.
Proof. rewrite append_assoc. reflexivity. Qed.

Lemma length_append (a b : string) :
  String.length (a +:+ b) = (String.length a + String.length b)%nat.
Proof. induction a; simpl; congruence. Qed.

Lemma str_take_append (a b : string) : str_take (String.length a) (a +:+ b) = a.
Proof. induction a; simpl; [destruct b|]; congruence. Qed.

Lemma str_drop_append (a b : string) : str_drop (String.length a) (a +:+ b) = b.
Proof. induction a; simpl; congruence. Qed.

Lemma get_append (a b : string) (c : ascii) :
  String.get (String.length a) (a +:+ String c b) = Some c.
Proof. induction a; simpl; congruence. Qed.

Lemma contains_append (c : ascii) (a b : string) :
  contains c (a +:+ b) = contains c a || contains c b.
Proof. induction a as [|x a IH]; simpl; [reflexivity|]. rewrite IH. apply orb_assoc. Qed.

Lemma rfind_lower (c : ascii) (s : string) : -1 ≤ rfind c s.
Proof.
  induction s as [|a s IH]; simpl; [lia|].
  destruct (Z.leb_spec 0 (rfind c s)); [lia|]. destruct (Ascii.eqb a c); lia.
Qed.

Lemma rfind_free (c : ascii) (s : string) : contains c s = false → rfind c s = -1.
Proof.
  induction s as [|a s IH]; simpl; [reflexivity|].
  intros [Ha Hs]%orb_false_iff. rewrite IH, Ha by assumption. reflexivity.
Qed.

Lemma rfind_last (c : ascii) (a b : string) :
  contains c b = false → rfind c (a +:+ String c b) = slen a.
Proof.
  intros Hb. unfold slen. induction a as [|x a IH]; simpl.
  - rewrite (rfind_free _ _ Hb), Ascii.eqb_refl. reflexivity.
  - rewrite IH. destruct (Z.leb_spec 0 (Z.of_nat (String.length a))); lia.
Qed.

Lemma all_char_append (c : ascii) (a b : string) :
  all_char c (a +:+ b) = all_char c a && all_char c b.
Proof. induction a as [|x a IH]; simpl; [reflexivity|]. rewrite IH. apply andb_assoc. Qed.

Lemma rstrip_keep (c : ascii) (a : string) (x : ascii) :
  x ≠ c → rstrip c (a +:+ String x "") = a +:+ String x "".
Proof.
  intros Hx. induction a as [|y a IH]; simpl.
  - destruct (Ascii.eqb_spec x c); congruence.
  - rewrite IH. destruct a; reflexivity.
Qed.

Lemma rstrip_sep (c : ascii) (a : string) :
  rstrip c (a +:+ String c "") = rstrip c a.
Proof.
  induction a as [|y a IH]; simpl.
  - rewrite Ascii.eqb_refl. reflexivity.
  - rewrite IH. reflexivity.
Qed.

(** A string that is not empty ends with a last character. *)
Lemma string_last (s : string) : s ≠ "" → ∃ a x, s = a +:+ String x "".
Proof.
  induction s as [|y s IH]; [congruence|]. intros _.
  destruct s as [|z s].
  - exists "", y. reflexivity.
  - destruct IH as (a & x & E); [congruence|]. exists (String y a), x. simpl. congruence.
Qed.

Lemma contains_last (c : ascii) (a : string) (x : ascii) :
  contains c (a +:+ String x "") = false → x ≠ c.
Proof.
  rewrite contains_append. simpl. intros [_ H]%orb_false_iff.
  destruct (Ascii.eqb_spec x c); [discriminate|assumption].
Qed.

End Strings.

Section Paths.

Lemma basename_after_slash (a b : string) :
  free_of "/" b → OsPath.basename (a +:+ "/" +:+ b) = b.
Proof.
  intros Hb. unfold OsPath.basename, slice_from. simpl (_ +:+ b).
  rewrite rfind_last by exact Hb. unfold slen.
  replace (Z.to_nat (Z.of_nat (String.length a) + 1)) with (String.length (a +:+ "/")).
  - rewrite (append_snoc a b). apply str_drop_append.
  - rewrite length_append. simpl. lia.
Qed.

Lemma basename_free (b : string) : free_of "/" b → OsPath.basename b = b.
Proof.
  intros Hb. unfold OsPath.basename, slice_from. rewrite rfind_free by exact Hb. reflexivity.
Qed.

Lemma dirname_folder (a folder file : string) :
  entry_name folder → free_of "/" file →
  OsPath.dirname (a +:+ folder +:+ "/" +:+ file) = a +:+ folder.
Proof.
  intros [Hne Hfolder] Hfile. unfold OsPath.dirname, slice_to.
  rewrite <- (append_assoc a folder). simpl (_ +:+ file).
  rewrite rfind_last by exact Hfile. unfold slen.
  replace (Z.to_nat (Z.of_nat (String.length (a +:+ folder)) + 1))
    with (String.length ((a +:+ folder) +:+ "/")) by (rewrite !length_append; simpl; lia).
  rewrite (append_snoc (a +:+ folder) file), str_take_append.
  destruct (string_last folder Hne) as (f & x & ->).
  pose proof (contains_last _ _ _ Hfolder) as Hx.
  assert (all_char "/" ((a +:+ f +:+ String x "") +:+ "/") = false) as Hall.
  { rewrite !all_char_append. simpl. destruct (Ascii.eqb_spec x "/"); [congruence|].
    rewrite !andb_false_r. reflexivity. }
  rewrite Hall. simpl negb. rewrite andb_true_r.
  destruct (String.eqb_spec ((a +:+ f +:+ String x "") +:+ "/") "") as [E|_].
  { apply (f_equal String.length) in E. rewrite !length_append in E. simpl in E. lia. }
  simpl negb. cbv iota. rewrite rstrip_sep, <- append_assoc. apply rstrip_keep, Hx.
Qed.

Lemma immediate_parent_nested (pre folder file : string) :
  entry_name folder → free_of "/" file →
  immediate_parent (pre +:+ "/" +:+ folder +:+ "/" +:+ file) = folder.
Proof.
  intros Hfolder Hfile. unfold immediate_parent.
  rewrite <- (append_assoc pre "/"), dirname_folder by assumption.
  rewrite append_assoc. apply basename_after_slash, Hfolder.
Qed.

Lemma immediate_parent_relative (folder file : string) :
  entry_name folder → free_of "/" file →
  immediate_parent (folder +:+ "/" +:+ file) = folder.
Proof.
  intros Hfolder Hfile. unfold immediate_parent.
  pose proof (dirname_folder "" folder file Hfolder Hfile) as E.
  change ("" +:+ folder +:+ "/" +:+ file) with (folder +:+ "/" +:+ file) in E.
  change ("" +:+ folder) with folder in E.
  rewrite E. apply basename_free, Hfolder.
Qed.

End Paths.

(** ** [range] *)

Section Range.





End Range.

(** ** The silence-synthesis stage *)

Section Silence.

Context {sample : Type}.
Implicit Types (audio : list sample) (R : Z).







Lemma for_each_write_segment (silence_dir name ext : string) (audio : list sample) (sr : Z)
    (starts : list Z) (st : workdir_state sample) :
  for_each starts (write_segment silence_dir name ext audio sr) st
  = (Ok tt, WorkdirState (dirs st)
              (write_all (files st) (clips_of silence_dir name ext audio sr starts))
              (links st) (complete st)).
Proof.
  revert st. induction starts as [|start starts IH]; intros st.
  - destruct st; reflexivity.
  - cbn [for_each]. unfold mbind, stage_bind at 1.
    unfold write_segment at 1, sf_write, modify. cbn beta iota. rewrite IH. reflexivity.
Qed.



(** A rate below two leaves a zero step, and [range] raises. *)
Lemma clip_starts_zero_step audio R :
  0 ≤ R < 2 → clip_starts audio R = Raise ValueError.
Proof.
  intros HR. unfold clip_starts, range.
  replace (R / 2) with 0 by (symmetry; apply Z.div_small; lia). reflexivity.
Qed.

(** C6: with no recording in the background folder, [run] raises at its
    first statement and leaves the working directory as it found it: no
    clip, no link and no completion mark are added. *)
Theorem run_without_background (workdir train_workdir : string)
    (corpus : train_corpus sample) (st : workdir_state sample) :
  Forall (fun '(f, _) => glob_wav f = false) (background_files corpus) →
  run workdir train_workdir corpus st = (Raise AssertionError, st).
Proof.
  intros Hnone. unfold run.
  assert (∀ tp, glob_background tp corpus = []) as ->; [|reflexivity].
  intros tp. unfold glob_background.
  induction Hnone as [|[f snd] fs Hf _ IH]; [reflexivity|].
  rewrite filter_cons. destruct (decide (glob_wav f = true)); [congruence|exact IH].
Qed.

End Silence.

Example run_pink_noise :
  let corpus :=
    TrainCorpus [("pink_noise.wav", Sound [1; 2; 3; 4; 5; 6; 7; 8; 9; 10; 11; 12; 13; 14] 4);
                 ("README.md", Sound [] 4)]
                [("off", true); ("_background_noise_", true);
                 ("validation_list.txt", false); ("LICENSE", false)] in
  run "/w/gen" "/w/speech" corpus (WorkdirState ∅ ∅ ∅ false)
  = (Ok tt,
     WorkdirState {["/w/gen/_silence_"]}
       (list_to_map
          [("/w/gen/_silence_/pink_noise-0.wav", Sound [1; 2; 3; 4] 4);
           ("/w/gen/_silence_/pink_noise-2.wav", Sound [3; 4; 5; 6] 4);
           ("/w/gen/_silence_/pink_noise-4.wav", Sound [5; 6; 7; 8] 4);
           ("/w/gen/_silence_/pink_noise-6.wav", Sound [7; 8; 9; 10] 4);
           ("/w/gen/_silence_/pink_noise-8.wav", Sound [9; 10; 11; 12] 4)])
       (list_to_map
          [("/w/gen/off", "/w/speech/train/off");
           ("/w/gen/validation_list.txt", "/w/speech/train/validation_list.txt")])
       true).
Proof. vm_compute. reflexivity. Qed.



(** [run_without_background] on a background folder that holds no [.wav]
    file. *)
Lemma run_without_background_witness :
  run "/w/gen" "/w/speech" (TrainCorpus [("README.md", Sound [1; 2] 2)] [("off", true)])
      (WorkdirState ∅ ∅ ∅ false)
  = (Raise AssertionError, WorkdirState ∅ ∅ ∅ false).
Proof.
  apply run_without_background. repeat constructor.
Defined.

Section Label.

Lemma apply_label_cases (relative_path : pyval) :
  let parent := immediate_parent (fspath relative_path) in
  apply_label relative_path
  = if decide (parent ∈ WORDS ∨ parent = SILENCE) then parent else UNKNOWN.
Proof.
  intros parent. unfold apply_label. fold (immediate_parent (fspath relative_path)).
  fold parent.
  destruct (bool_decide_reflect (parent ∈ WORDS)) as [Hin|Hout];
    destruct (String.eqb_spec parent SILENCE) as [Hs|Hs]; simpl;
    destruct (decide (parent ∈ WORDS ∨ parent = SILENCE)) as [H|H];
    try reflexivity; exfalso; tauto.
Qed.

(** C7: the label is the name of the parent folder when that is a target
    word or the silence folder and the unknown label otherwise, so every
    label lies in the vocabulary; for a path [.../folder/file] the parent
    folder read by the code is [folder]. *)
Theorem apply_label_closed (relative_path : pyval) :
  let parent := immediate_parent (fspath relative_path) in
  (parent ∈ WORDS ∨ parent = SILENCE → apply_label relative_path = parent)
  ∧ (¬ (parent ∈ WORDS ∨ parent = SILENCE) → apply_label relative_path = UNKNOWN)
  ∧ apply_label relative_path ∈ label_vocabulary
  ∧ (∀ pre folder file : string, entry_name folder → free_of "/" file →
       immediate_parent (pre +:+ "/" +:+ folder +:+ "/" +:+ file) = folder
       ∧ immediate_parent (folder +:+ "/" +:+ file) = folder).
Proof.
  intros parent. pose proof (apply_label_cases relative_path) as Hcases.
  fold parent in Hcases. cbv zeta in Hcases. rewrite Hcases. unfold label_vocabulary.
  destruct (decide (parent ∈ WORDS ∨ parent = SILENCE)) as [H|H].
  - split; [reflexivity|]. split; [tauto|]. split.
    + apply elem_of_app. destruct H as [H| ->]; [left; exact H|right].
      apply list_elem_of_further, list_elem_of_here.
    + auto using immediate_parent_nested, immediate_parent_relative.
  - split; [tauto|]. split; [reflexivity|]. split.
    + apply elem_of_app. right. apply list_elem_of_here.
    + auto using immediate_parent_nested, immediate_parent_relative.
Qed.

End Label.

(** ** The marker pattern *)

Section Marker.

Lemma startswith_append (m s : string) : startswith (m +:+ s) m = true.
Proof.
  induction m as [|c m IH]; simpl; [reflexivity|].
  rewrite Ascii.eqb_refl. exact IH.
Qed.

Lemma startswith_split (s m : string) :
  startswith s m = true → ∃ suf, s = m +:+ suf.
Proof.
  revert s. induction m as [|c m IH]; intros s; simpl.
  - exists s. reflexivity.
  - destruct s as [|d s]; [discriminate|].
    intros [->%Ascii.eqb_eq (suf & ->)%IH]%andb_true_iff. exists suf. reflexivity.
Qed.


Lemma substring_in_here (t s : string) :
  startswith s t = true → substring_in t s = true.
Proof. intros H. destruct s; simpl; rewrite H; reflexivity. Qed.

Lemma substring_in_spec (t s : string) :
  substring_in t s = true ↔ ∃ pre suf, s = pre +:+ t +:+ suf.
Proof.
  split.
  - induction s as [|a s IH]; simpl.
    + rewrite orb_false_r. intros (suf & E)%startswith_split. exists "", suf. exact E.
    + intros [(suf & E)%startswith_split|(pre & suf & ->)%IH]%orb_true_iff.
      * exists "", suf. exact E.
      * exists (String a pre), suf. reflexivity.
  - intros (pre & suf & ->). induction pre as [|a pre IH]; simpl.
    + apply substring_in_here, startswith_append.
    + rewrite IH. apply orb_true_r.
Qed.

Lemma sub_nohash_unmarked (slug : string) :
  substring_in Re.marker slug = false → Re.sub_nohash slug = slug.
Proof.
  induction slug as [|a s IH]; [reflexivity|].
  intros [Hhere Hlater]%orb_false_iff. cbn [Re.sub_nohash].
  rewrite Hhere, IH by exact Hlater. reflexivity.
Qed.

Lemma contains_str_drop (c : ascii) (n : nat) (s : string) :
  free_of c s → free_of c (str_drop n s).
Proof.
  unfold free_of. revert s. induction n as [|n IH]; intros [|a s]; simpl; try done.
  intros [_ H]%orb_false_iff. apply IH, H.
Qed.

Lemma dotstar_eol_one_line (s : string) :
  free_of "010" s → Re.dotstar_eol s = Some "".
Proof.
  unfold free_of. induction s as [|a s IH]; simpl; [reflexivity|].
  intros [-> H]%orb_false_iff. apply IH, H.
Qed.

(** On a text of one line the substitution strips everything from the
    first occurrence of the marker on. *)
Lemma sub_nohash_one_line (s : string) :
  free_of "010" s → Re.sub_nohash s = cut_at Re.marker s.
Proof.
  induction s as [|a s IH]; [reflexivity|]. intros Hline.
  assert (free_of "010" s) as Hs by (unfold free_of in *; simpl in Hline; apply orb_false_iff in Hline; tauto).
  cbn [Re.sub_nohash cut_at].
  destruct (startswith (String a s) Re.marker); [|rewrite IH by exact Hs; reflexivity].
  rewrite dotstar_eol_one_line; [reflexivity|]. apply contains_str_drop, Hline.
Qed.



End Marker.

(** ** The subsample key *)

Section KeyProofs.

Context {process : Type} (filename_to_int_hash : process → string → Z).


(** C10: on a slug without the marker both components of the key are the
    hash of the slug itself. *)
Theorem subsample_key_unmarked (proc : process) (slug : string) :
  substring_in Re.marker slug = false →
  let key := get_subsample_key filename_to_int_hash proc slug in
  key.1 = key.2 ∧ key.2 = filename_to_int_hash proc slug.
Proof.
  intros Hfree key. unfold key, get_subsample_key. simpl.
  rewrite sub_nohash_unmarked by exact Hfree. split; reflexivity.
Qed.

End KeyProofs.


(** [subsample_key_unmarked] on the slug of a silence clip. *)
Lemma subsample_key_unmarked_witness :
  (get_subsample_key (fun (_ : unit) => adler32) tt "silence-pink-noise-8000").1
  = (get_subsample_key (fun (_ : unit) => adler32) tt "silence-pink-noise-8000").2.
Proof.
  apply (subsample_key_unmarked (fun (_ : unit) => adler32) tt "silence-pink-noise-8000").
  reflexivity.
Defined.

(** ** The slug *)

Section SlugProofs.

Import Slugify.

Lemma lstrip_suffix (c : ascii) (s : string) : ∃ l, s = l +:+ lstrip c s.
Proof.
  induction s as [|a s [l IH]]; simpl; [exists ""; reflexivity|].
  destruct (Ascii.eqb a c).
  - exists (String a l). simpl. congruence.
  - exists "". reflexivity.
Qed.

Lemma rstrip_prefix (c : ascii) (s : string) : ∃ r, s = rstrip c s +:+ r.
Proof.
  induction s as [|a s [r IH]]; simpl; [exists ""; reflexivity|].
  destruct (rstrip c s) as [|b t].
  - destruct (Ascii.eqb a c).
    + exists (String a s). reflexivity.
    + exists r. simpl. simpl in IH. congruence.
  - exists r. simpl. simpl in IH. congruence.
Qed.

Lemma str_forall_append (p : ascii → bool) (a b : string) :
  str_forall p (a +:+ b) = str_forall p a && str_forall p b.
Proof. induction a as [|x a IH]; simpl; [reflexivity|]. rewrite IH. apply andb_assoc. Qed.

Lemma substring_in_prefix (t x r : string) :
  substring_in t (x +:+ r) = false → substring_in t x = false.
Proof.
  intros H. destruct (substring_in t x) eqn:E; [|reflexivity].
  apply substring_in_spec in E as (pre & suf & ->).
  rewrite <- H. symmetry. apply substring_in_spec. exists pre, (suf +:+ r).
  rewrite !append_assoc. reflexivity.
Qed.

Lemma substring_in_suffix (t l x : string) :
  substring_in t (l +:+ x) = false → substring_in t x = false.
Proof.
  induction l as [|a l IH]; simpl; [tauto|].
  intros [_ H]%orb_false_iff. apply IH, H.
Qed.

Lemma startswith_prefix (x r t : string) :
  startswith (x +:+ r) t = false → startswith x t = false.
Proof.
  revert x. induction t as [|b t IH]; intros x; simpl; [discriminate|].
  destruct x as [|a x]; simpl; [reflexivity|].
  intros [->|H]%andb_false_iff; [reflexivity|]. rewrite (IH _ H). apply andb_false_r.
Qed.

Lemma lstrip_head (c : ascii) (s : string) :
  startswith (lstrip c s) (String c "") = false.
Proof.
  induction s as [|a s IH]; simpl; [reflexivity|].
  destruct (Ascii.eqb a c) eqn:E; [exact IH|]. simpl. rewrite E. reflexivity.
Qed.

Lemma rstrip_tail (c : ascii) (s : string) :
  endswith (rstrip c s) (String c "") = false.
Proof.
  induction s as [|a s IH]; simpl; [reflexivity|].
  destruct (rstrip c s) as [|b t] eqn:E.
  - destruct (Ascii.eqb a c) eqn:Ea; [reflexivity|]. simpl. rewrite Ea. reflexivity.
  - change (endswith (String a (String b t)) (String c ""))
      with (String.eqb (String a (String b t)) (String c "")
            || endswith (String b t) (String c "")).
    rewrite IH. destruct (String.eqb_spec (String a (String b t)) (String c ""));
      [discriminate|reflexivity].
Qed.

(** Replacing runs leaves the characters outside the class and dashes. *)
Lemma sub_runs_forall (cls p : ascii → bool) (b : bool) (s : string) :
  p "-"%char = true → (∀ a, cls a = false → p a = true) →
  str_forall p (sub_runs cls b s) = true.
Proof.
  intros Hdash Hp. revert b. induction s as [|a s IH]; intros b; simpl; [reflexivity|].
  destruct (cls a) eqn:E.
  - destruct b; simpl; [apply IH|]. rewrite Hdash. apply IH.
  - simpl. rewrite (Hp a E). apply IH.
Qed.

Lemma sub_runs_keeps (cls p : ascii → bool) (b : bool) (s : string) :
  p "-"%char = true → str_forall p s = true →
  str_forall p (sub_runs cls b s) = true.
Proof.
  intros Hdash. revert b. induction s as [|a s IH]; intros b; simpl; [reflexivity|].
  intros [Ha Hs]%andb_true_iff. destruct (cls a).
  - destruct b; simpl; [apply IH, Hs|]. rewrite Hdash. apply IH, Hs.
  - simpl. rewrite Ha. apply IH, Hs.
Qed.

(** After the runs of dashes are merged no dash follows a dash. *)
Lemma sub_runs_dash (b : bool) (s : string) :
  substring_in "--" (sub_runs is_dash b s) = false
  ∧ (b = true → startswith (sub_runs is_dash b s) "-" = false).
Proof.
  revert b. induction s as [|a s IH]; intros b; [split; intros; reflexivity|].
  cbn [sub_runs]. destruct (is_dash a) eqn:E.
  - destruct b; [apply IH|]. destruct (IH true) as [Hsub Hhead].
    split; [|discriminate]. specialize (Hhead eq_refl).
    cbn [substring_in startswith] in Hhead |- *. rewrite Hsub, Hhead. reflexivity.
  - destruct (IH false) as [Hsub _]. unfold is_dash in E. split.
    + cbn [substring_in startswith]. rewrite E, Hsub. reflexivity.
    + intros _. cbn [startswith]. rewrite E. reflexivity.
Qed.

Lemma allowed_dash : allowed "-" = true.
Proof. reflexivity. Qed.

(** Whatever the text, [slugify] returns a normalised slug. *)
Lemma slugify_is_slug (text : string) : is_slug (slugify text) = true.
Proof.
  unfold slugify, strip.
  set (t := sub_runs (fun a => negb (allowed a)) false _).
  set (u := sub_runs is_dash false t).
  assert (str_forall allowed u = true) as Hall.
  { apply sub_runs_keeps; [reflexivity|]. apply sub_runs_forall; [reflexivity|].
    intros a Ha. destruct (allowed a); [reflexivity|discriminate]. }
  destruct (sub_runs_dash false t) as [Hsub _]. fold u in Hsub.
  destruct (lstrip_suffix "-" u) as [l Hl]. destruct (rstrip_prefix "-" (lstrip "-" u)) as [r Hr].
  unfold is_slug. repeat (apply andb_true_iff; split).
  - rewrite Hl, Hr, !str_forall_append in Hall.
    apply andb_true_iff in Hall as [_ Hall]. apply andb_true_iff in Hall as [Hall _]. exact Hall.
  - apply negb_true_iff. apply (startswith_prefix _ r). rewrite <- Hr. apply lstrip_head.
  - apply negb_true_iff, rstrip_tail.
  - apply negb_true_iff. apply (substring_in_prefix _ _ r). rewrite <- Hr.
    apply (substring_in_suffix _ l). rewrite <- Hl. exact Hsub.
Qed.

(** A slug holds no line feed. *)
Lemma slug_one_line (s : string) : is_slug s = true → free_of "010" s.
Proof.
  unfold is_slug. intros H. repeat (apply andb_true_iff in H as [H _]).
  unfold free_of. induction s as [|a s IH]; [reflexivity|]. simpl in *.
  apply andb_true_iff in H as [Ha Hs]. rewrite (IH Hs), orb_false_r.
  destruct (Ascii.eqb_spec a "010") as [->|]; [discriminate|reflexivity].
Qed.

End SlugProofs.

(** ** The slug of names that are already normal *)

Section SlugOfWords.

Import Slugify.

(** A fact about every character, settled by trying each of them. *)
Ltac each_char a := destruct a as [[] [] [] [] [] [] [] []]; (reflexivity || discriminate).

Lemma path_char_no_quote (a : ascii) : path_char a = true → is_quote a = false.
Proof. each_char a. Qed.

Lemma path_char_no_comma (a : ascii) : path_char a = true → is_comma a = false.
Proof. each_char a. Qed.

Lemma path_char_lower (a : ascii) : path_char a = true → lower_char a = a.
Proof. each_char a. Qed.

Lemma allowed_path_char (a : ascii) : allowed a = true → path_char a = true.
Proof. unfold path_char. intros ->. reflexivity. Qed.

Lemma str_forall_impl (p q : ascii → bool) (s : string) :
  (∀ a, p a = true → q a = true) → str_forall p s = true → str_forall q s = true.
Proof.
  intros Hpq. induction s as [|a s IH]; simpl; [reflexivity|].
  intros [Ha Hs]%andb_true_iff. rewrite (Hpq a Ha), (IH Hs). reflexivity.
Qed.

Lemma sub_runs_outside (cls p : ascii → bool) (b : bool) (s : string) :
  (∀ a, p a = true → cls a = false) → str_forall p s = true → sub_runs cls b s = s.
Proof.
  intros Hp. revert b. induction s as [|a s IH]; intros b; simpl; [reflexivity|].
  intros [Ha Hs]%andb_true_iff. rewrite (Hp a Ha), (IH _ Hs). reflexivity.
Qed.

Lemma remove_outside (cls p : ascii → bool) (s : string) :
  (∀ a, p a = true → cls a = false) → str_forall p s = true → remove cls s = s.
Proof.
  intros Hp. induction s as [|a s IH]; simpl; [reflexivity|].
  intros [Ha Hs]%andb_true_iff. rewrite (Hp a Ha), (IH Hs). reflexivity.
Qed.

Lemma lower_path (s : string) : str_forall path_char s = true → lower s = s.
Proof.
  induction s as [|a s IH]; simpl; [reflexivity|].
  intros [Ha Hs]%andb_true_iff. rewrite (path_char_lower a Ha), (IH Hs). reflexivity.
Qed.

Lemma cleanup_numbers_path (b : bool) (s : string) :
  str_forall path_char s = true → cleanup_numbers b s = s.
Proof.
  revert b. induction s as [|a s IH]; intros b; simpl; [reflexivity|].
  intros [Ha Hs]%andb_true_iff. rewrite (path_char_no_comma a Ha). cbn [andb].
  rewrite (IH _ Hs). reflexivity.
Qed.

(** One character of the class between two texts outside of it becomes a
    dash. *)
Lemma sub_runs_separator (cls p : ascii → bool) (a b : string) (c : ascii) :
  (∀ x, p x = true → cls x = false) → cls c = true →
  str_forall p a = true → str_forall p b = true →
  sub_runs cls false (a +:+ String c b) = a +:+ String "-" b.
Proof.
  intros Hp Hc Ha Hb. induction a as [|x a IH]; simpl.
  - rewrite Hc, (sub_runs_outside cls p) by assumption. reflexivity.
  - simpl in Ha. apply andb_true_iff in Ha as [Hx Ha].
    rewrite (Hp x Hx), (IH Ha). reflexivity.
Qed.

Lemma sub_runs_dash_single (b : bool) (s : string) :
  substring_in "--" s = false → (b = true → startswith s "-" = false) →
  sub_runs is_dash b s = s.
Proof.
  revert b. induction s as [|a s IH]; intros b; [reflexivity|].
  cbn [substring_in startswith sub_runs]. intros [Hhere Hlater]%orb_false_iff Hb.
  unfold is_dash at 1. destruct (Ascii.eqb_spec a "-") as [->|Hne].
  - destruct b; [specialize (Hb eq_refl); discriminate|].
    rewrite IH; [reflexivity|exact Hlater|]. intros _.
    simpl in Hhere. destruct s; [reflexivity|]. simpl in *. rewrite andb_true_r in *.
    exact Hhere.
  - rewrite IH; [reflexivity|exact Hlater|discriminate].
Qed.

Lemma endswith_tail (x : ascii) (s t : string) :
  endswith (String x s) t = false → endswith s t = false.
Proof. cbn [endswith]. intros [_ H]%orb_false_iff. exact H. Qed.

(** Joining two dash-separated texts with a dash doubles no dash. *)
Lemma no_double_dash_join (a b : string) :
  substring_in "--" a = false → endswith a "-" = false →
  substring_in "--" b = false → startswith b "-" = false →
  substring_in "--" (a +:+ String "-" b) = false.
Proof.
  intros Ha Hend Hb Hstart. induction a as [|x a IH].
  - cbn [String.append substring_in startswith]. rewrite Hb.
    simpl. destruct b; [reflexivity|]. simpl in *. rewrite andb_true_r in *.
    rewrite Hstart. reflexivity.
  - cbn [substring_in] in Ha. apply orb_false_iff in Ha as [Hhere Hlater].
    pose proof (endswith_tail _ _ _ Hend) as Hend'.
    cbn [String.append substring_in]. rewrite (IH Hlater Hend'), orb_false_r.
    cbn [startswith]. destruct (Ascii.eqb_spec x "-") as [->|]; [|reflexivity].
    destruct a as [|y a]; [discriminate Hend|].
    cbn [String.append startswith] in Hhere |- *.
    destruct (Ascii.eqb y "-"); [discriminate Hhere|reflexivity].
Qed.

Lemma rstrip_no_tail (c : ascii) (s : string) :
  endswith s (String c "") = false → rstrip c s = s.
Proof.
  induction s as [|x s IH]; [reflexivity|]. intros H.
  pose proof (endswith_tail _ _ _ H) as H'. cbn [rstrip]. rewrite (IH H').
  destruct s; [|reflexivity].
  simpl in H. destruct (Ascii.eqb x c); [discriminate|reflexivity].
Qed.

Lemma endswith_append_tail (a b : string) (c : ascii) :
  b ≠ "" → endswith (a +:+ b) (String c "") = endswith b (String c "").
Proof.
  intros Hb. induction a as [|x a IH]; [reflexivity|].
  cbn [String.append endswith]. rewrite IH.
  destruct (String.eqb_spec (String x (a +:+ b)) (String c "")) as [E|_]; [|reflexivity].
  injection E as _ E. destruct a; simpl in E; [contradiction|discriminate].
Qed.

Lemma is_slug_parts (s : string) :
  is_slug s = true →
  str_forall allowed s = true ∧ startswith s "-" = false
  ∧ endswith s "-" = false ∧ substring_in "--" s = false.
Proof.
  unfold is_slug. rewrite !andb_true_iff, !negb_true_iff. tauto.
Qed.

(** The slug of [folder/stem], for a folder and a stem that are normal
    already, is [folder-stem]. *)
Lemma slugify_join (folder stem : string) :
  is_slug folder = true → folder ≠ "" → is_slug stem = true → stem ≠ "" →
  slugify (folder +:+ "/" +:+ stem) = folder +:+ "-" +:+ stem.
Proof.
  intros (Ha1 & Ha2 & Ha3 & Ha4)%is_slug_parts Hane (Hb1 & Hb2 & Hb3 & Hb4)%is_slug_parts Hbne.
  assert (str_forall path_char (folder +:+ "/" +:+ stem) = true) as Hpath.
  { rewrite str_forall_append. cbn [String.append str_forall].
    rewrite !(str_forall_impl allowed path_char) by (assumption || apply allowed_path_char).
    reflexivity. }
  unfold slugify.
  rewrite (sub_runs_outside is_quote path_char) by (assumption || apply path_char_no_quote).
  rewrite lower_path by exact Hpath.
  rewrite (remove_outside is_quote path_char) by (assumption || apply path_char_no_quote).
  rewrite cleanup_numbers_path by exact Hpath.
  change (folder +:+ "/" +:+ stem) with (folder +:+ String "/" stem).
  rewrite (sub_runs_separator _ allowed) by
    (assumption || reflexivity || (intros x ->; reflexivity)).
  rewrite sub_runs_dash_single;
    [|apply no_double_dash_join; assumption|discriminate].
  unfold strip.
  assert (lstrip "-" (folder +:+ String "-" stem) = folder +:+ String "-" stem) as ->.
  { destruct folder as [|x folder]; [contradiction|]. cbn [String.append lstrip].
    cbn [startswith] in Ha2. rewrite andb_true_r in Ha2. rewrite Ha2. reflexivity. }
  apply rstrip_no_tail. rewrite endswith_append_tail by discriminate.
  cbn [String.append endswith]. rewrite Hb3, orb_false_r.
  destruct stem; [contradiction|]. reflexivity.
Qed.

End SlugOfWords.

(** ** The name a slug is made from *)

Section SlugName.

Lemma split_nonempty (c : ascii) (s : string) : Py.split c s ≠ [].
Proof. induction s as [|a s IH]; simpl; [done|]. destruct (Ascii.eqb a c), (Py.split c s); done. Qed.

Lemma split_free (c : ascii) (s : string) : free_of c s → Py.split c s = [s].
Proof.
  unfold free_of. induction s as [|a s IH]; simpl; [reflexivity|].
  intros [-> H]%orb_false_iff. rewrite (IH H). reflexivity.
Qed.

Lemma split_append (c : ascii) (a b : string) :
  Py.split c (a +:+ String c b) = Py.split c a ++ Py.split c b.
Proof.
  induction a as [|x a IH]; simpl.
  - rewrite Ascii.eqb_refl. reflexivity.
  - rewrite IH. destruct (Ascii.eqb x c); [reflexivity|].
    pose proof (split_nonempty c a). destruct (Py.split c a); [done|reflexivity].
Qed.

Lemma filter_kept_lstrip (s : string) :
  filter (fun x => Pathlib.kept x = true) (Py.split "/" (lstrip "/" s))
  = filter (fun x => Pathlib.kept x = true) (Py.split "/" s).
Proof.
  induction s as [|a s IH]; simpl; [reflexivity|].
  destruct (Ascii.eqb a "/") eqn:E; [|simpl; rewrite E; reflexivity].
  rewrite IH. rewrite filter_cons_False; [reflexivity|]. simpl. discriminate.
Qed.

(** The parts of a path text are its components that are neither empty nor
    a dot, after the root if it has one. *)
Lemma parts_components (s : string) :
  ∃ root : list string,
    Pathlib.parts s = root ++ filter (fun x => Pathlib.kept x = true) (Py.split "/" s).
Proof.
  unfold Pathlib.parts, Pathlib.splitroot.
  destruct (startswith s "/").
  - destruct (_ =? 2).
    + exists ["//"]. simpl. rewrite filter_kept_lstrip. reflexivity.
    + exists ["/"]. simpl. rewrite filter_kept_lstrip. reflexivity.
  - exists []. reflexivity.
Qed.

Lemma last2_append {A : Type} (l : list A) (a b : A) : Pathlib.last2 (l ++ [a; b]) = [a; b].
Proof.
  unfold Pathlib.last2. rewrite length_app. simpl.
  replace (length l + 2 - 2)%nat with (length l) by lia. apply drop_app_length.
Qed.

Lemma kept_entry (x : string) : x ≠ "" → x ≠ "." → Pathlib.kept x = true.
Proof.
  intros H1 H2. unfold Pathlib.kept.
  destruct (String.eqb_spec x ""), (String.eqb_spec x "."); done.
Qed.

Lemma parts_nested (pre folder file : string) :
  entry_name folder → folder ≠ "." → entry_name file → file ≠ "." →
  ∃ l, Pathlib.parts (pre +:+ "/" +:+ folder +:+ "/" +:+ file) = l ++ [folder; file].
Proof.
  intros [Hf1 Hf2] Hf3 [Hg1 Hg2] Hg3.
  destruct (parts_components (pre +:+ "/" +:+ folder +:+ "/" +:+ file)) as [root ->].
  exists (root ++ filter (fun x => Pathlib.kept x = true) (Py.split "/" pre)).
  change (pre +:+ "/" +:+ folder +:+ "/" +:+ file)
    with (pre +:+ String "/" (folder +:+ String "/" file)).
  rewrite !split_append, (split_free _ _ Hf2), (split_free _ _ Hg2).
  rewrite !filter_app, !filter_cons_True by (apply kept_entry; assumption).
  rewrite filter_nil, <- app_assoc. reflexivity.
Qed.

Lemma parts_relative (folder file : string) :
  entry_name folder → folder ≠ "." → entry_name file → file ≠ "." →
  Pathlib.parts (folder +:+ "/" +:+ file) = [folder; file].
Proof.
  intros [Hf1 Hf2] Hf3 [Hg1 Hg2] Hg3. unfold Pathlib.parts, Pathlib.splitroot.
  assert (startswith (folder +:+ "/" +:+ file) "/" = false) as ->.
  { destruct folder as [|c folder]; [done|]. simpl. unfold free_of in Hf2. simpl in Hf2.
    apply orb_false_iff in Hf2 as [-> _]. reflexivity. }
  change (folder +:+ "/" +:+ file) with (folder +:+ String "/" file).
  rewrite split_append, (split_free _ _ Hf2), (split_free _ _ Hg2).
  simpl. rewrite !filter_cons_True by (apply kept_entry; assumption). reflexivity.
Qed.

Lemma endswith_free (c : ascii) (s : string) :
  free_of c s → endswith s (String c "") = false.
Proof.
  unfold free_of. induction s as [|a s IH]; simpl; [reflexivity|].
  intros [Ha H]%orb_false_iff. rewrite (IH H), Ha. reflexivity.
Qed.

Lemma startswith_free (c : ascii) (s : string) :
  free_of c s → startswith s (String c "") = false.
Proof.
  unfold free_of. destruct s as [|a s]; simpl; [reflexivity|].
  intros [-> _]%orb_false_iff. reflexivity.
Qed.

Lemma join_entry (folder file : string) :
  entry_name folder → free_of "/" file →
  OsPath.join folder [file] = folder +:+ "/" +:+ file.
Proof.
  intros [Hne Hfolder] Hfile. unfold OsPath.join. cbn [fold_left].
  unfold OsPath.join_step.
  rewrite (startswith_free _ _ Hfile), (endswith_free _ _ Hfolder).
  destruct (String.eqb_spec folder ""); done.
Qed.

Lemma splitext_entry (folder stem ext : string) :
  free_of "/" folder → stem_name stem → ext_name ext →
  OsPath.splitext (folder +:+ "/" +:+ stem +:+ "." +:+ ext)
  = (folder +:+ "/" +:+ stem, "." +:+ ext).
Proof.
  intros Hfolder [Hstem (c & stem' & -> & Hc)] [Hext1 Hext2].
  remember (folder +:+ "/" +:+ String c stem' +:+ "." +:+ ext) as p eqn:Hp.
  assert (p = folder +:+ String "/" (String c stem' +:+ String "." ext)) as Hp1
    by (rewrite Hp; reflexivity).
  assert (p = (folder +:+ "/" +:+ String c stem') +:+ String "." ext) as Hp2
    by (rewrite Hp, !append_assoc; reflexivity).
  assert (p = (folder +:+ "/") +:+ String c (stem' +:+ "." +:+ ext)) as Hp3
    by (rewrite Hp, append_assoc; reflexivity).
  assert (rfind "/" p = slen folder) as Hsep.
  { rewrite Hp1. apply rfind_last. rewrite contains_append, Hstem. exact Hext1. }
  assert (rfind "." p = slen (folder +:+ "/" +:+ String c stem')) as Hdot.
  { rewrite Hp2. apply rfind_last, Hext2. }
  assert (slen (folder +:+ "/" +:+ String c stem') = slen folder + 2 + slen stem') as Hlen.
  { unfold slen. rewrite !length_append. simpl. lia. }
  assert (String.get (Z.to_nat (slen folder + 1)) p = Some c) as Hget.
  { replace (Z.to_nat (slen folder + 1)) with (String.length (folder +:+ "/"))
      by (unfold slen; rewrite length_append; simpl; lia).
    rewrite Hp3. apply get_append. }
  unfold OsPath.splitext. rewrite Hsep, Hdot.
  destruct (Z.ltb_spec (slen folder) (slen (folder +:+ "/" +:+ String c stem')));
    [|unfold slen in *; lia].
  replace (Z.to_nat _) with (S (String.length stem')) by (unfold slen in *; lia).
  cbn [OsPath.splitext_loop]. rewrite Hget.
  destruct (Ascii.eqb_spec c "."); [done|].
  unfold slice_to, slice_from, slen. rewrite Nat2Z.id, Hp2.
  rewrite str_take_append, str_drop_append. reflexivity.
Qed.

Lemma stem_entry (stem ext : string) :
  stem_name stem → ext_name ext →
  entry_name (stem +:+ "." +:+ ext) ∧ stem +:+ "." +:+ ext ≠ ".".
Proof.
  intros [Hstem (c & stem' & -> & Hc)] [Hext _]. split; [split|].
  - done.
  - unfold free_of. rewrite contains_append, Hstem. simpl. exact Hext.
  - simpl. congruence.
Qed.

(** The slug of [.../folder/stem.ext] is made from [folder/stem]. *)
Lemma slugify_file_name_parts (l : Pathlib.path) (folder stem ext : string) :
  entry_name folder → stem_name stem → ext_name ext →
  slugify_file_name (PosixPath (l ++ [folder; stem +:+ "." +:+ ext]))
  = Ok (Slugify.slugify (folder +:+ "/" +:+ stem)).
Proof.
  intros Hfolder Hstem Hext. unfold slugify_file_name. cbn [Path].
  rewrite last2_append.
  destruct (stem_entry stem ext Hstem Hext) as [[_ Hfile] _].
  rewrite join_entry by assumption.
  rewrite splitext_entry by (try apply Hfolder; assumption). reflexivity.
Qed.

Lemma slugify_file_name_nested (pre folder stem ext : string) :
  entry_name folder → folder ≠ "." → stem_name stem → ext_name ext →
  slugify_file_name (Str (pre +:+ "/" +:+ folder +:+ "/" +:+ stem +:+ "." +:+ ext))
  = Ok (Slugify.slugify (folder +:+ "/" +:+ stem)).
Proof.
  intros Hfolder Hdot Hstem Hext.
  destruct (stem_entry stem ext Hstem Hext) as [Hfile Hfdot].
  destruct (parts_nested pre folder _ Hfolder Hdot Hfile Hfdot) as [l Hl].
  pose proof (slugify_file_name_parts l folder stem ext Hfolder Hstem Hext) as H.
  unfold slugify_file_name in *. cbn [Path] in *. rewrite Hl. exact H.
Qed.

Lemma slugify_file_name_relative (folder stem ext : string) :
  entry_name folder → folder ≠ "." → stem_name stem → ext_name ext →
  slugify_file_name (Str (folder +:+ "/" +:+ stem +:+ "." +:+ ext))
  = Ok (Slugify.slugify (folder +:+ "/" +:+ stem)).
Proof.
  intros Hfolder Hdot Hstem Hext.
  destruct (stem_entry stem ext Hstem Hext) as [Hfile Hfdot].
  pose proof (slugify_file_name_parts [] folder stem ext Hfolder Hstem Hext) as H.
  unfold slugify_file_name in *. cbn [Path] in *.
  rewrite parts_relative by assumption. exact H.
Qed.

Lemma slugify_file_name_is_slug (relative_path : pyval) (s : string) :
  slugify_file_name relative_path = Ok s → is_slug s = true.
Proof.
  unfold slugify_file_name. destruct (Pathlib.last2 _); [discriminate|].
  intros [= <-]. apply slugify_is_slug.
Qed.

End SlugName.

(** ** Slug, speaker id and key *)

(** C8: for a path [.../folder/stem.ext], given as a string or as a path
    object, the slug is the normal form of [folder/stem], the extension
    dropped, which is [folder-stem] when the two names are normal already;
    a slug is lower-case, made of letters, digits and dashes, with the dash
    as its only separator; on a slug the speaker id is the slug with
    everything from the first marker on stripped; and the example of the
    spec evaluates as it says. *)
Theorem slug_and_speaker_id :
  (∀ (pre : string) (l : Pathlib.path) (folder stem ext : string),
     entry_name folder → folder ≠ "." → stem_name stem → ext_name ext →
     slugify_file_name (Str (pre +:+ "/" +:+ folder +:+ "/" +:+ stem +:+ "." +:+ ext))
     = Ok (Slugify.slugify (folder +:+ "/" +:+ stem))
     ∧ slugify_file_name (Str (folder +:+ "/" +:+ stem +:+ "." +:+ ext))
       = Ok (Slugify.slugify (folder +:+ "/" +:+ stem))
     ∧ slugify_file_name (PosixPath (l ++ [folder; stem +:+ "." +:+ ext]))
       = Ok (Slugify.slugify (folder +:+ "/" +:+ stem)))
  ∧ (∀ folder stem : string,
       is_slug folder = true → folder ≠ "" → is_slug stem = true → stem ≠ "" →
       Slugify.slugify (folder +:+ "/" +:+ stem) = folder +:+ "-" +:+ stem)
  ∧ (∀ (relative_path : pyval) (s : string),
       slugify_file_name relative_path = Ok s →
       is_slug s = true ∧ Re.sub_nohash s = cut_at Re.marker s)
  ∧ slugify_file_name (Str "off/xyz123-nohash-0.wav") = Ok "off-xyz123-nohash-0"
  ∧ Re.sub_nohash "off-xyz123-nohash-0" = "off-xyz123".
Proof.
  split; [|split; [|split; [|split; reflexivity]]].
  - intros pre l folder stem ext Hfolder Hdot Hstem Hext. split; [|split].
    + apply slugify_file_name_nested; assumption.
    + apply slugify_file_name_relative; assumption.
    + apply slugify_file_name_parts; assumption.
  - apply slugify_join.
  - intros relative_path s Hs. apply slugify_file_name_is_slug in Hs.
    split; [exact Hs|]. apply sub_nohash_one_line, slug_one_line, Hs.
Qed.

Section SameSpeaker.

Context {process : Type} (filename_to_int_hash : process → string → Z).



End SameSpeaker.




(** ** The partition *)

Section Partition.

Implicit Types (c : corpus) (sp : split_paths) (v : pyval).

Lemma data_frame_relpath (paths : list pyval) (name : string) :
  sr_relpath <$> data_frame paths name = paths.
Proof.
  unfold data_frame. induction paths as [|v ps IH]; [reflexivity|].
  cbn. f_equal. exact IH.
Qed.

Lemma data_frame_elem (paths : list pyval) (name : string) (r : split_row) :
  r ∈ data_frame paths name ↔ sr_split r = name ∧ sr_relpath r ∈ paths.
Proof.
  unfold data_frame. rewrite list_elem_of_fmap. split.
  - intros (v & -> & Hv). split; [reflexivity|exact Hv].
  - intros [<- Hv]. exists (sr_relpath r). split; [destruct r; reflexivity|exact Hv].
Qed.

(** The join is empty exactly when no [relpath] is in both tables. *)
Lemma merge_empty (left right : list split_row) :
  merge left right = []
  ↔ ∀ v, v ∈ sr_relpath <$> left → v ∈ sr_relpath <$> right → False.
Proof.
  unfold merge. induction left as [|l left IH]; simpl.
  - split; [intros _ v Hv%elem_of_nil; destruct Hv|reflexivity].
  - rewrite app_nil, IH. clear IH. split.
    + intros [Hl Hrest] v [->|Hv]%elem_of_cons Hr; [|exact (Hrest v Hv Hr)].
      clear Hrest. induction right as [|r right IH]; [exact (proj1 (elem_of_nil _) Hr)|].
      simpl in Hl. apply app_nil in Hl as [Hhere Hl].
      apply elem_of_cons in Hr as [E|Hr]; [|exact (IH Hl Hr)].
      destruct (decide (sr_relpath l = sr_relpath r)); [discriminate|contradiction].
    + intros H. split.
      * induction right as [|r right IH]; [reflexivity|]. simpl.
        destruct (decide (sr_relpath l = sr_relpath r)) as [E|_].
        { exfalso. apply (H (sr_relpath l)); [apply list_elem_of_here|].
          rewrite E. simpl. apply list_elem_of_here. }
        simpl. apply IH. intros v Hv Hr. apply (H v Hv). simpl.
        apply list_elem_of_further, Hr.
      * intros v Hv. apply H. apply list_elem_of_further, Hv.
Qed.


Lemma get_split_paths_disjoint c sp :
  compute_split_paths c = Ok sp → train_valid_disjoint sp →
  get_split_paths c = Ok (split_table sp).
Proof.
  intros Hsp Hdis. unfold get_split_paths. rewrite Hsp. simpl.
  pose proof (merge_empty (data_frame (train_rel_paths sp) "train")
                (data_frame (validation_rel_paths sp) "valid")) as Hm.
  rewrite !data_frame_relpath in Hm. unfold len.
  rewrite (proj2 Hm Hdis). reflexivity.
Qed.

(** A table is returned only from disjoint train and validation paths. *)
Lemma get_split_paths_ok c (rows : list split_row) :
  get_split_paths c = Ok rows →
  ∃ sp, compute_split_paths c = Ok sp ∧ train_valid_disjoint sp ∧ rows = split_table sp.
Proof.
  unfold get_split_paths. destruct (compute_split_paths c) as [sp|e] eqn:Hsp; [|discriminate].
  simpl. pose proof (merge_empty (data_frame (train_rel_paths sp) "train")
                (data_frame (validation_rel_paths sp) "valid")) as Hm.
  rewrite !data_frame_relpath in Hm. unfold len.
  destruct (merge _ _) as [|x xs]; [|discriminate].
  intros [= <-]. exists sp. split; [reflexivity|]. split; [|reflexivity].
  exact (proj1 Hm eq_refl).
Qed.

Lemma split_table_elem sp (r : split_row) :
  r ∈ split_table sp
  ↔ (sr_split r = "test" ∧ sr_relpath r ∈ test_paths sp)
    ∨ (sr_split r = "valid" ∧ sr_relpath r ∈ validation_rel_paths sp)
    ∨ (sr_split r = "train" ∧ sr_relpath r ∈ train_rel_paths sp).
Proof. unfold split_table. rewrite !elem_of_app, !data_frame_elem. reflexivity. Qed.


End Partition.


Section Precedence.

Implicit Types (c : corpus) (sp : split_paths) (v : pyval).

Lemma glob_elem (base : Pathlib.path) (pd pf : string → bool) (t : tree) (p : Pathlib.path) :
  p ∈ glob base pd pf t
  ↔ ∃ d f, p = base ++ [d; f] ∧ (d, f) ∈ t ∧ pd d = true ∧ pf f = true.
Proof.
  unfold glob. rewrite list_elem_of_fmap. split.
  - intros ([d f] & -> & [[Hd Hf]%andb_true_iff Hin]%list_elem_of_filter).
    exists d, f. auto.
  - intros (d & f & -> & Hin & Hd & Hf). exists (d, f). split; [reflexivity|].
    apply list_elem_of_filter. rewrite Hd, Hf. auto.
Qed.

(** An audio path is [folder/file], relative to the train directory. *)
Lemma audio_paths_form c (p : string) :
  tree_names_ok (train_tree c) → p ∈ audio_paths c →
  ∃ d f, p = d +:+ "/" +:+ f ∧ entry_name d ∧ entry_name f.
Proof.
  intros Hok. unfold audio_paths. rewrite list_elem_of_fmap.
  intros (q & -> & (d & f & -> & Hin & _)%glob_elem).
  unfold tree_names_ok in Hok. rewrite Forall_forall in Hok.
  destruct (Hok _ Hin) as [Hd Hf]. exists d, f. split; [|auto].
  rewrite drop_app_length. unfold Pathlib.str, Pathlib.is_root.
  rewrite (startswith_free _ _ (proj2 Hd)). reflexivity.
Qed.

Lemma join_train_relative c (p q : string) :
  startswith p "/" = false → startswith q "/" = false →
  join_train c p = join_train c q → p = q.
Proof.
  intros Hp Hq. unfold join_train, OsPath.join. cbn [fold_left]. unfold OsPath.join_step.
  rewrite Hp, Hq. intros [= E]. destruct (_ || _).
  - exact (String.app_inj _ _ _ E).
  - apply String.app_inj in E. exact (String.app_inj "/" _ _ E).
Qed.

Lemma relative_entry (d f : string) : entry_name d → startswith (d +:+ "/" +:+ f) "/" = false.
Proof.
  intros [Hne Hfree]. destruct d as [|a d]; [done|]. unfold free_of in Hfree. simpl in *.
  apply orb_false_iff in Hfree as [-> _]. reflexivity.
Qed.

Lemma reference_list_ok (content : option string) (paths : list string) :
  reference_list content = Ok paths →
  ∃ text, content = Some text ∧ paths = splitlines (strip_space text).
Proof.
  unfold reference_list. destruct content as [text|]; [|discriminate].
  intros [= <-]. exists text. auto.
Qed.

(** The fields of the computed paths, read off [compute_split_paths]. *)
Lemma compute_split_paths_ok c sp :
  compute_split_paths c = Ok sp →
  ∃ validation_paths train_test_paths : list string,
    reference_list (validation_list_txt c) = Ok validation_paths
    ∧ reference_list (testing_list_txt c) = Ok train_test_paths
    ∧ (∀ v, v ∈ test_paths sp → ∃ p, v = PosixPath p)
    ∧ (∀ v, v ∈ validation_rel_paths sp ↔
         (∃ p, v = join_train c p ∧ p ∈ validation_paths)
         ∨ (∃ p, v = PosixPath p
              ∧ p ∈ glob (train_path c) (String.eqb SILENCE) glob_running_tap_wav (train_tree c)))
    ∧ (∀ v, v ∈ train_rel_paths sp ↔
         (∃ p, v = join_train c p ∧ p ∈ audio_paths c
               ∧ (p ∉ train_test_paths) ∧ (p ∉ validation_paths))
         ∨ (∃ p, v = PosixPath p
              ∧ p ∈ glob (train_path c) (String.eqb SILENCE) glob_wav (train_tree c)
              ∧ (p ∉ glob (train_path c) (String.eqb SILENCE) glob_running_tap_wav
                                  (train_tree c)))).
Proof.
  unfold compute_split_paths.
  destruct (reference_list (validation_list_txt c)) as [vps|] eqn:Hv; [|discriminate].
  destruct (reference_list (testing_list_txt c)) as [tps|] eqn:Ht; [|discriminate].
  simpl. intros [= <-]. exists vps, tps. split; [reflexivity|]. split; [reflexivity|].
  cbn [test_paths validation_rel_paths train_rel_paths]. split; [|split].
  - intros v (p & -> & _)%list_elem_of_fmap. exists p. reflexivity.
  - intros v. rewrite elem_of_app. change (map ?f ?l) with (f <$> l).
    rewrite !list_elem_of_fmap. reflexivity.
  - intros v. rewrite elem_of_app. change (map ?f ?l) with (f <$> l).
    rewrite !list_elem_of_fmap. setoid_rewrite elem_of_elements.
    setoid_rewrite elem_of_difference. setoid_rewrite elem_of_difference.
    setoid_rewrite elem_of_list_to_set. split; (intros [(p & -> & H)|(p & -> & H)]; [left|right]; exists p; tauto).
Qed.

(** C5: a path listed in [validation_list.txt] that is also one of the
    enumerated train audio paths is in the table as a "valid" row and in no
    other row, so never as "train". *)
Theorem validation_list_wins c (rows : list split_row)
    (validation_paths : list string) (p : string) :
  tree_names_ok (train_tree c) →
  reference_list (validation_list_txt c) = Ok validation_paths →
  p ∈ validation_paths → p ∈ audio_paths c →
  get_split_paths c = Ok rows →
  SplitRow (join_train c p) "valid" ∈ rows
  ∧ (SplitRow (join_train c p) "train" ∉ rows)
  ∧ (∀ r, r ∈ rows → sr_relpath r = join_train c p → sr_split r = "valid").
Proof.
  intros Hok Hlist Hval Haudio (sp & Hsp & _ & ->)%get_split_paths_ok.
  destruct (compute_split_paths_ok c sp Hsp) as (vps & tps & Hv & _ & Htest & Hvalid & Htrain).
  rewrite Hlist in Hv. injection Hv as <-.
  assert (∀ r, r ∈ split_table sp → sr_relpath r = join_train c p → sr_split r = "valid")
    as Honly.
  { intros r [[_ Hr]|[[Hr _]|[_ Hr]]]%split_table_elem E; [| exact Hr |]; exfalso.
    - apply Htest in Hr as [q Hq]. rewrite E in Hq. discriminate.
    - rewrite E in Hr. apply Htrain in Hr as [(q & Hq & Hqa & _ & Hqv)|(q & Hq & _)];
        [|discriminate].
      destruct (audio_paths_form c p Hok Haudio) as (d & f & -> & Hd & _).
      destruct (audio_paths_form c q Hok Hqa) as (d' & f' & -> & Hd' & _).
      apply join_train_relative in Hq; [|apply relative_entry; assumption..].
      rewrite <- Hq in Hqv. contradiction. }
  split; [|split; [|exact Honly]].
  - apply split_table_elem. right. left. split; [reflexivity|]. cbn [sr_relpath].
    apply Hvalid. left. exists p. auto.
  - intros Hin. specialize (Honly _ Hin eq_refl). discriminate.
Qed.

End Precedence.

(** [validation_list_wins] on [corpus_listed], with the table
    [get_split_paths] returns for it. *)
Lemma validation_list_wins_witness :
  SplitRow (Str "/w/gen/off/a.wav") "valid"
    ∈ [SplitRow (PosixPath ["/"; "w"; "test"; "test"; "off"; "t.wav"]) "test";
       SplitRow (Str "/w/gen/off/a.wav") "valid";
       SplitRow (Str "/w/gen/off/b.wav") "train";
       SplitRow (PosixPath ["/"; "w"; "gen"; "_silence_"; "pink_noise-0.wav"]) "train"]
  ∧ (SplitRow (Str "/w/gen/off/a.wav") "train"
     ∉ [SplitRow (PosixPath ["/"; "w"; "test"; "test"; "off"; "t.wav"]) "test";
        SplitRow (Str "/w/gen/off/a.wav") "valid";
        SplitRow (Str "/w/gen/off/b.wav") "train";
        SplitRow (PosixPath ["/"; "w"; "gen"; "_silence_"; "pink_noise-0.wav"]) "train"]).
Proof.
  destruct (validation_list_wins corpus_listed
    [SplitRow (PosixPath ["/"; "w"; "test"; "test"; "off"; "t.wav"]) "test";
     SplitRow (Str "/w/gen/off/a.wav") "valid";
     SplitRow (Str "/w/gen/off/b.wav") "train";
     SplitRow (PosixPath ["/"; "w"; "gen"; "_silence_"; "pink_noise-0.wav"]) "train"]
    ["off/a.wav"] "off/a.wav") as (Hvalid & Htrain & _).
  - repeat constructor; done.
  - reflexivity.
  - apply list_elem_of_here.
  - apply list_elem_of_here.
  - vm_compute. reflexivity.
  - split; [exact Hvalid|exact Htrain].
Defined.

(** ** The metadata table *)

Section Metadata.

Context {process : Type} (filename_to_int_hash : process → string → Z).

Lemma mapM_ok {A B : Type} (f : A → result B) (xs : list A) (ys : list B) :
  mapM f xs = Ok ys → Forall2 (fun x y => f x = Ok y) xs ys.
Proof.
  revert ys. induction xs as [|x xs IH]; intros ys; simpl.
  - intros [= <-]. constructor.
  - destruct (f x) as [y|] eqn:Hy; [|discriminate]. simpl.
    destruct (mapM f xs) as [ys'|]; [|discriminate]. simpl.
    intros [= <-]. constructor; [exact Hy|]. apply IH. reflexivity.
Qed.

Lemma Forall2_elem_r {A B : Type} (P : A → B → Prop) (xs : list A) (ys : list B) (y : B) :
  Forall2 P xs ys → y ∈ ys → ∃ x, x ∈ xs ∧ P x y.
Proof.
  induction 1 as [|x y' xs ys Hxy _ IH]; [intros []%elem_of_nil|].
  intros [->|Hy]%elem_of_cons.
  - exists x. split; [apply list_elem_of_here|exact Hxy].
  - destruct (IH Hy) as (x' & Hx' & HP). exists x'.
    split; [apply list_elem_of_further, Hx'|exact HP].
Qed.

Lemma get_process_metadata_ok (proc : process) (c : corpus)
    (table : list meta_row) :
  get_process_metadata filename_to_int_hash proc c = Ok table →
  ∃ rows, get_split_paths c = Ok rows ∧ Forall2 (row_of filename_to_int_hash proc) rows table.
Proof.
  unfold get_process_metadata. destruct (get_split_paths c) as [rows|]; [|discriminate].
  simpl. intros H%mapM_ok. exists rows. split; [reflexivity|].
  eapply Forall2_impl; [exact H|]. intros r m. simpl.
  destruct (slugify_file_name (sr_relpath r)) as [s|] eqn:Hs; [|discriminate]. simpl.
  intros [= <-]. unfold row_of. cbn. rewrite Hs. auto.
Qed.

(** C2 (amended): the table returned has the rows of the test, the
    validation and the train paths, in this order and one row per path as
    computed, so its length is the sum of the three counts; every row carries
    one split name out of train, valid and test, and the slug, key and label
    of its path; the one condition checked before the table is returned is
    that no path is both a train and a validation path. *)
Theorem metadata_rows (proc : process) (c : corpus) (table : list meta_row) :
  get_process_metadata filename_to_int_hash proc c = Ok table →
  ∃ sp : split_paths,
    compute_split_paths c = Ok sp
    ∧ map (fun m => (relpath m, split m)) table
      = map (fun v => (v, "test")) (test_paths sp)
        ++ map (fun v => (v, "valid")) (validation_rel_paths sp)
        ++ map (fun v => (v, "train")) (train_rel_paths sp)
    ∧ length table
      = (length (test_paths sp) + length (validation_rel_paths sp)
         + length (train_rel_paths sp))%nat
    ∧ Forall (fun m => split m ∈ ["train"; "valid"; "test"]) table
    ∧ Forall (fun m =>
                slugify_file_name (relpath m) = Ok (slug m)
                ∧ subsample_key m = get_subsample_key filename_to_int_hash proc (slug m)
                ∧ label m = apply_label (relpath m)) table
    ∧ train_valid_disjoint sp.
Proof.
  intros (rows & (sp & Hsp & Hdis & ->)%get_split_paths_ok & Hrows)%get_process_metadata_ok.
  exists sp. split; [exact Hsp|].
  assert (map (fun m => (relpath m, split m)) table
          = map (fun r => (sr_relpath r, sr_split r)) (split_table sp)) as Hcols.
  { induction Hrows as [|r m rows table (Hr & Hs & _) _ IH]; [reflexivity|].
    simpl. rewrite Hr, Hs, IH. reflexivity. }
  assert (map (fun r => (sr_relpath r, sr_split r)) (split_table sp)
          = map (fun v => (v, "test")) (test_paths sp)
            ++ map (fun v => (v, "valid")) (validation_rel_paths sp)
            ++ map (fun v => (v, "train")) (train_rel_paths sp)) as Htable.
  { unfold split_table, data_frame. rewrite !map_app, !map_map. reflexivity. }
  split; [rewrite Hcols; exact Htable|]. split; [|split; [|split; [|exact Hdis]]].
  - apply (f_equal length) in Hcols. rewrite Htable in Hcols.
    rewrite !length_app, !length_map in Hcols. lia.
  - apply Forall_forall. intros m Hm.
    destruct (Forall2_elem_r _ _ _ _ Hrows Hm) as (r & Hr & _ & Hs & _).
    rewrite Hs. apply split_table_elem in Hr as [[-> _]|[[-> _]|[-> _]]].
    + do 2 apply list_elem_of_further. apply list_elem_of_here.
    + apply list_elem_of_further, list_elem_of_here.
    + apply list_elem_of_here.
  - apply Forall_forall. intros m Hm.
    destruct (Forall2_elem_r _ _ _ _ Hrows Hm) as (r & _ & Hr & _ & Hslug & Hkey & Hlabel).
    rewrite Hr. auto.
Qed.

End Metadata.

(** [metadata_rows] on [corpus_repeated_line]: four rows, for one test, two
    validation and one train path. *)
Lemma metadata_rows_witness :
  ∃ table : list meta_row,
    get_process_metadata (fun _ : unit => adler32) tt corpus_repeated_line = Ok table
    ∧ length table = 4%nat.
Proof.
  destruct (get_process_metadata (fun _ : unit => adler32) tt corpus_repeated_line)
    as [table|e] eqn:Htable; [|vm_compute in Htable; discriminate].
  exists table. split; [reflexivity|].
  destruct (metadata_rows (fun _ : unit => adler32) tt corpus_repeated_line table Htable)
    as (sp & Hsp & _ & Hlen & _).
  vm_compute in Hsp. injection Hsp as <-. exact Hlen.
Defined.

(** C2 (counterexample): with a line repeated in [validation_list.txt] the
    table is returned, nothing having been raised, with two rows of one
    [relpath]. *)
Lemma metadata_duplicate_relpath :
  ∃ table : list meta_row,
    get_process_metadata (fun _ : unit => adler32) tt corpus_repeated_line = Ok table
    ∧ relpath <$> table
      = [PosixPath ["/"; "w"; "test"; "test"; "off"; "t.wav"];
         Str "/w/gen/off/a.wav"; Str "/w/gen/off/a.wav"; Str "/w/gen/off/b.wav"]
    ∧ ¬ NoDup (relpath <$> table).
Proof.
  eexists. split; [vm_compute; reflexivity|]. split; [reflexivity|].
  cbn. intros Hnodup. apply NoDup_cons in Hnodup as [_ Hnodup].
  apply NoDup_cons in Hnodup as [Hnotin _]. apply Hnotin, list_elem_of_here.
Qed.

(** ** The working directory [run] leaves *)

Section RunProofs.

Context {sample : Type}.
Implicit Types (st : workdir_state sample).

Lemma write_all_app (fs : gmap string (sound sample)) (a b : list (string * sound sample)) :
  write_all fs (a ++ b) = write_all (write_all fs a) b.
Proof. unfold write_all. apply fold_left_app. Qed.

Lemma slice_recording_outcome (silence_dir : string) (audio_path : Pathlib.path)
    (snd : sound sample) st :
  slice_recording silence_dir audio_path snd st
  = match recording_clips silence_dir audio_path snd with
    | Ok clips =>
        (Ok tt, WorkdirState (dirs st) (write_all (files st) clips) (links st) (complete st))
    | Raise e => (Raise e, st)
    end.
Proof.
  unfold slice_recording, recording_clips.
  destruct (OsPath.splitext _) as [name ext]. unfold mbind, stage_bind, lift.
  destruct (clip_starts _ _) as [starts|e]; [|reflexivity].
  cbn. rewrite for_each_write_segment. reflexivity.
Qed.

Lemma slicing_loop (silence_dir : string) (recs : list (Pathlib.path * sound sample)) st :
  for_each recs (fun '(audio_path, snd) => slice_recording silence_dir audio_path snd) st
  = ((clips_written silence_dir recs).2,
     WorkdirState (dirs st) (write_all (files st) (clips_written silence_dir recs).1)
                  (links st) (complete st)).
Proof.
  revert st. induction recs as [|[audio_path snd] recs IH]; intros st.
  - destruct st; reflexivity.
  - cbn [for_each clips_written]. unfold mbind, stage_bind at 1.
    rewrite slice_recording_outcome.
    destruct (recording_clips silence_dir audio_path snd) as [clips|e].
    + rewrite IH. destruct (clips_written silence_dir recs) as [more outcome].
      cbn [fst Datatypes.snd dirs files links complete]. rewrite write_all_app. reflexivity.
    + destruct st; reflexivity.
Qed.

Lemma for_each_app {S A : Type} (xs ys : list A) (body : A → stage S unit) (s : S) :
  for_each (xs ++ ys) body s
  = match for_each xs body s with
    | (Ok _, s') => for_each ys body s'
    | (Raise e, s') => (Raise e, s')
    end.
Proof.
  revert s. induction xs as [|x xs IH]; intros s; [reflexivity|].
  cbn [app for_each]. unfold mbind, stage_bind.
  destruct (body x s) as [[[]|e] s']; [apply IH|reflexivity].
Qed.

(** One entry is linked by relinking its pairs in order. *)
Lemma link_entry_pairs (workdir : string) (train_path : Pathlib.path)
    (file_obj : string * bool) st :
  link_entry workdir train_path file_obj st
  = for_each (entry_links workdir train_path file_obj) (fun kv => relink kv.1 kv.2) st.
Proof.
  destruct file_obj as [name is_dir]. unfold link_entry, entry_links.
  destruct (is_dir && _), (_ || _); cbn [app for_each fst Datatypes.snd];
    unfold mbind, stage_bind, mret, stage_ret;
    repeat match goal with |- context [relink ?l ?t ?s] => destruct (relink l t s) as [[[]|?] ?] end;
    reflexivity.
Qed.

Lemma linking_loop_pairs (workdir : string) (train_path : Pathlib.path)
    (entries : list (string * bool)) st :
  for_each entries (link_entry workdir train_path) st
  = for_each (flat_map (entry_links workdir train_path) entries)
             (fun kv => relink kv.1 kv.2) st.
Proof.
  revert st. induction entries as [|e entries IH]; intros st; [reflexivity|].
  cbn [flat_map for_each]. rewrite for_each_app. unfold mbind, stage_bind at 1.
  rewrite link_entry_pairs.
  destruct (for_each (entry_links workdir train_path e) _ st) as [[[]|err] st'];
    [apply IH|reflexivity].
Qed.

Lemma relink_loop (pairs : list (string * string)) st :
  for_each pairs (fun kv => relink kv.1 kv.2) st
  = ((links_made (dirs st) pairs).2,
     WorkdirState (dirs st) (unlink_all (files st) (links_made (dirs st) pairs).1.*1)
                  (link_all (links st) (links_made (dirs st) pairs).1) (complete st)).
Proof.
  revert st. induction pairs as [|[link target] pairs IH]; intros st.
  - destruct st; reflexivity.
  - cbn [for_each links_made fst Datatypes.snd]. unfold mbind, stage_bind at 1.
    unfold relink at 1. destruct (decide (link ∈ dirs st)) as [Hin|Hout].
    + destruct st; reflexivity.
    + rewrite IH. cbn [dirs files links complete].
      destruct (links_made (dirs st) pairs) as [more outcome]. reflexivity.
Qed.

Lemma links_made_all (ds : gset string) (pairs : list (string * string)) :
  Forall (fun kv => kv.1 ∉ ds) pairs → links_made ds pairs = (pairs, Ok tt).
Proof.
  induction 1 as [|[link target] pairs Hout _ IH]; [reflexivity|].
  cbn [links_made]. simpl in Hout. destruct (decide (link ∈ ds)); [contradiction|].
  rewrite IH. reflexivity.
Qed.

Lemma links_made_ok (ds : gset string) (pairs : list (string * string)) :
  (links_made ds pairs).2 = Ok tt →
  Forall (fun kv => kv.1 ∉ ds) pairs ∧ (links_made ds pairs).1 = pairs.
Proof.
  induction pairs as [|[link target] pairs IH]; [split; [constructor|reflexivity]|].
  cbn [links_made]. destruct (decide (link ∈ ds)); [discriminate|].
  destruct (links_made ds pairs) as [more outcome]. cbn [fst Datatypes.snd] in *.
  intros H. destruct (IH H) as [Hall ->]. split; [constructor; assumption|reflexivity].
Qed.

(** What [run] returns and leaves, whatever it is given. *)
Lemma run_outcome (workdir train_workdir : string) (corpus : train_corpus sample) st :
  let train_path := Pathlib.joinpath (Pathlib.parts train_workdir) "train" in
  let silence_dir := OsPath.join workdir [SILENCE] in
  let recs := glob_background train_path corpus in
  let ds := {[silence_dir]} ∪ dirs st in
  let written := clips_written silence_dir recs in
  let made := links_made ds (flat_map (entry_links workdir train_path) (train_entries corpus)) in
  run workdir train_workdir corpus st
  = match recs with
    | [] => (Raise AssertionError, st)
    | _ :: _ =>
        match written.2 with
        | Raise e =>
            (Raise e, WorkdirState ds (write_all (files st) written.1) (links st) (complete st))
        | Ok _ =>
            (made.2,
             WorkdirState ds (unlink_all (write_all (files st) written.1) made.1.*1)
                          (link_all (links st) made.1)
                          (if made.2 is Ok _ then true else complete st))
        end
    end.
Proof.
  cbv zeta. unfold run.
  generalize (glob_background (Pathlib.joinpath (Pathlib.parts train_workdir) "train") corpus).
  intros recs. destruct recs as [|r recs']; [reflexivity|].
  set (recs := r :: recs'). replace (0 <? len recs) with true by reflexivity.
  unfold assert_, mbind, stage_bind, mret, stage_ret, makedirs, modify at 1.
  rewrite slicing_loop. cbn [dirs files links complete].
  destruct (clips_written _ recs).2 as [[]|e]; [|reflexivity].
  rewrite linking_loop_pairs, relink_loop. cbn [dirs files links complete].
  destruct (links_made _ _).2 as [[]|e]; reflexivity.
Qed.

Lemma recording_clips_outcome (silence_dir : string) (audio_path : Pathlib.path)
    (snd : sound sample) :
  (samplerate snd / 2 ≠ 0 → ∃ clips, recording_clips silence_dir audio_path snd = Ok clips)
  ∧ (samplerate snd / 2 = 0 → recording_clips silence_dir audio_path snd = Raise ValueError).
Proof.
  unfold recording_clips, clip_starts, range. split.
  - intros Hstep. destruct (Z.eqb_spec (samplerate snd / 2) 0); [contradiction|].
    destruct (0 <? _); eexists; reflexivity.
  - intros ->. reflexivity.
Qed.

Lemma clips_written_ok (silence_dir : string) (recs : list (Pathlib.path * sound sample)) :
  (clips_written silence_dir recs).2 = Ok tt
  ↔ Forall (fun rec => samplerate rec.2 / 2 ≠ 0) recs.
Proof.
  induction recs as [|[audio_path snd] recs IH]; [split; [constructor|reflexivity]|].
  cbn [clips_written]. rewrite Forall_cons. cbn [Datatypes.snd].
  destruct (recording_clips_outcome silence_dir audio_path snd) as [Hok Hraise].
  destruct (Z.eq_dec (samplerate snd / 2) 0) as [Hz|Hnz].
  - rewrite (Hraise Hz). split; [discriminate|tauto].
  - destruct (Hok Hnz) as [clips ->].
    destruct (clips_written silence_dir recs) as [more outcome]. cbn [Datatypes.snd] in *.
    tauto.
Qed.

(** A call that returns found [run_returns] and left [run_result]. *)
Lemma run_ok_state (workdir train_workdir : string) (corpus : train_corpus sample)
    (st st' : workdir_state sample) :
  run workdir train_workdir corpus st = (Ok tt, st') →
  run_returns workdir train_workdir corpus st
  ∧ st' = run_result workdir train_workdir corpus st.
Proof.
  rewrite run_outcome. unfold run_returns, run_result. cbv zeta.
  generalize (clips_written_ok (OsPath.join workdir [SILENCE])
                (glob_background (Pathlib.joinpath (Pathlib.parts train_workdir) "train") corpus)).
  generalize (glob_background (Pathlib.joinpath (Pathlib.parts train_workdir) "train") corpus).
  intros recs Hclips. set (pairs := flat_map _ _). set (ds := {[_]} ∪ dirs st).
  destruct recs as [|r recs']; [discriminate|].
  cbv beta iota. set (recs := r :: recs') in *.
  destruct (clips_written _ recs) as [clips outcome]. cbn [fst Datatypes.snd] in *.
  destruct outcome as [[]|e]; [|discriminate].
  pose proof (links_made_ok ds pairs) as Hok.
  destruct (links_made ds pairs) as [made out]. cbn [fst Datatypes.snd] in *.
  intros [= -> <-]. destruct (Hok eq_refl) as [Hlinks ->].
  split; [|reflexivity]. split; [discriminate|].
  split; [apply Hclips; reflexivity|exact Hlinks].
Qed.

(** Under [run_returns] the call returns, and leaves [run_result]. *)
Lemma run_returns_ok (workdir train_workdir : string) (corpus : train_corpus sample)
    (st : workdir_state sample) :
  run_returns workdir train_workdir corpus st →
  run workdir train_workdir corpus st
  = (Ok tt, run_result workdir train_workdir corpus st).
Proof.
  rewrite run_outcome. unfold run_returns, run_result. cbv zeta.
  generalize (clips_written_ok (OsPath.join workdir [SILENCE])
                (glob_background (Pathlib.joinpath (Pathlib.parts train_workdir) "train") corpus)).
  generalize (glob_background (Pathlib.joinpath (Pathlib.parts train_workdir) "train") corpus).
  intros recs Hclips (Hne & Hrates & Hlinks).
  destruct recs as [|r recs']; [contradiction|].
  cbv beta iota. set (recs := r :: recs') in *. apply Hclips in Hrates.
  destruct (clips_written _ recs) as [clips outcome]. cbn [fst Datatypes.snd] in *.
  rewrite Hrates, (links_made_all _ _ Hlinks). reflexivity.
Qed.

Section InsertAll.

Context {V : Type}.
Implicit Types (m : gmap string V) (l : list (string * V)).

Lemma insert_all_notin l m (k : string) :
  k ∉ l.*1 → fold_left (fun m kv => <[kv.1 := kv.2]> m) l m !! k = m !! k.
Proof.
  revert m. induction l as [|[k' v] l IH]; intros m Hk; [reflexivity|].
  cbn in *. apply not_elem_of_cons in Hk as [Hne Hk].
  rewrite IH by assumption. apply lookup_insert_ne. congruence.
Qed.

Lemma insert_all_base l m m' (k : string) :
  k ∈ l.*1 →
  fold_left (fun m kv => <[kv.1 := kv.2]> m) l m !! k
  = fold_left (fun m kv => <[kv.1 := kv.2]> m) l m' !! k.
Proof.
  revert m m'. induction l as [|[k' v] l IH]; intros m m' Hk; [inversion Hk|].
  cbn in *. destruct (decide (k ∈ l.*1)) as [Hin|Hout]; [apply IH, Hin|].
  apply elem_of_cons in Hk as [->|Hin]; [|contradiction].
  rewrite !insert_all_notin by assumption. rewrite !lookup_insert_eq. reflexivity.
Qed.


Lemma delete_all_lookup m (ks : list string) (k : string) :
  fold_left (fun m k => delete k m) ks m !! k
  = if decide (k ∈ ks) then None else m !! k.
Proof.
  revert m. induction ks as [|k' ks IH]; intros m.
  - cbn. destruct (decide (k ∈ [])) as [H|_]; [inversion H|reflexivity].
  - cbn. rewrite IH. destruct (decide (k ∈ ks)) as [Hin|Hout].
    + rewrite decide_True by (right; exact Hin). reflexivity.
    + destruct (decide (k = k')) as [->|Hne].
      * rewrite decide_True by left. apply lookup_delete_eq.
      * rewrite decide_False by (intros [?|?]%elem_of_cons; contradiction).
        apply lookup_delete_ne. congruence.
Qed.

End InsertAll.

(** Running [run] again on what it left writes the same clips and sets the
    same links. *)
Lemma run_result_again (workdir train_workdir : string) (corpus : train_corpus sample) st :
  run_result workdir train_workdir corpus (run_result workdir train_workdir corpus st)
  = run_result workdir train_workdir corpus st.
Proof.
  unfold run_result. cbv zeta.
  set (clips := (clips_written _ _).1). set (pairs := flat_map _ _).
  cbn [dirs files links complete]. f_equal.
  - apply set_eq. intros x. rewrite !elem_of_union. tauto.
  - apply map_eq. intros k. unfold unlink_all, write_all.
    rewrite !delete_all_lookup. destruct (decide (k ∈ pairs.*1)); [reflexivity|].
    destruct (decide (k ∈ clips.*1)) as [Hin|Hout].
    + apply insert_all_base, Hin.
    + rewrite insert_all_notin by assumption. rewrite delete_all_lookup.
      rewrite decide_False by assumption. reflexivity.
  - apply map_eq. intros k. unfold link_all.
    destruct (decide (k ∈ pairs.*1)) as [Hin|Hout].
    + apply insert_all_base, Hin.
    + rewrite insert_all_notin by assumption. reflexivity.
Qed.



(** X2: the completion mark is set exactly when [run] returns; when it
    raises, at whatever point, the mark is as it was before the call. *)
Theorem run_completion_mark (workdir train_workdir : string) (corpus : train_corpus sample)
    (st : workdir_state sample) :
  complete (run workdir train_workdir corpus st).2
  = match (run workdir train_workdir corpus st).1 with
    | Ok _ => true
    | Raise _ => complete st
    end.
Proof.
  rewrite run_outcome. cbv zeta.
  destruct (glob_background _ corpus) as [|r recs']; [reflexivity|].
  destruct (clips_written _ _).2; [|reflexivity].
  destruct (links_made _ _).2; reflexivity.
Qed.


(** X4: [run] can be run again: on the working directory a returning call
    left, the same call returns too and leaves every directory, file, link
    and the mark as they are. *)
Theorem run_again (workdir train_workdir : string) (corpus : train_corpus sample)
    (st st' : workdir_state sample) :
  run workdir train_workdir corpus st = (Ok tt, st') →
  run workdir train_workdir corpus st' = (Ok tt, st').
Proof.
  intros [Hret ->]%run_ok_state.
  rewrite <- (run_result_again workdir train_workdir corpus st) at 2.
  apply run_returns_ok.
  destruct Hret as (Hne & Hrates & Hlinks). repeat split; [assumption..|].
  eapply Forall_impl; [exact Hlinks|]. intros kv Hout. cbn beta in *.
  unfold run_result. cbn [dirs]. rewrite !elem_of_union in *. tauto.
Qed.


Lemma entry_links_elem (workdir : string) (train_path : Pathlib.path)
    (name : string) (is_dir : bool) (kv : string * string) :
  kv ∈ entry_links workdir train_path (name, is_dir)
  ↔ kv = (OsPath.join workdir [name], Pathlib.str (train_path ++ [name]))
    ∧ ((is_dir = true ∧ name ≠ BACKGROUND_NOISE)
       ∨ name = "testing_list.txt" ∨ name = "validation_list.txt").
Proof.
  unfold entry_links. rewrite elem_of_app.
  destruct is_dir; cbn [andb];
    destruct (String.eqb_spec name BACKGROUND_NOISE);
    destruct (String.eqb_spec name "testing_list.txt");
    destruct (String.eqb_spec name "validation_list.txt");
    cbn [negb orb]; rewrite ?elem_of_nil, ?list_elem_of_singleton; intuition congruence.
Qed.

Lemma links_elem (workdir : string) (train_path : Pathlib.path)
    (entries : list (string * bool)) (kv : string * string) :
  kv ∈ flat_map (entry_links workdir train_path) entries
  ↔ ∃ name is_dir, (name, is_dir) ∈ entries
      ∧ kv = (OsPath.join workdir [name], Pathlib.str (train_path ++ [name]))
      ∧ ((is_dir = true ∧ name ≠ BACKGROUND_NOISE)
         ∨ name = "testing_list.txt" ∨ name = "validation_list.txt").
Proof.
  rewrite list_elem_of_In, in_flat_map. split.
  - intros ([name is_dir] & Hin & Hkv). exists name, is_dir.
    apply list_elem_of_In in Hin. apply list_elem_of_In, entry_links_elem in Hkv. tauto.
  - intros (name & is_dir & Hin & Hkv). exists (name, is_dir).
    split; [apply list_elem_of_In, Hin|]. apply list_elem_of_In, entry_links_elem. exact Hkv.
Qed.




End RunProofs.


(** [run_again] on the working directory a first call left. *)
Lemma run_again_witness :
  let corpus :=
    TrainCorpus [("pink_noise.wav", Sound [1; 2; 3; 4; 5; 6; 7; 8] 4)]
                [("off", true); ("_background_noise_", true);
                 ("validation_list.txt", false)] in
  let st' :=
    WorkdirState {["/w/gen/_silence_"]}
      (list_to_map
         [("/w/gen/_silence_/pink_noise-0.wav", Sound [1; 2; 3; 4] 4);
          ("/w/gen/_silence_/pink_noise-2.wav", Sound [3; 4; 5; 6] 4)])
      (list_to_map
         [("/w/gen/off", "/w/speech/train/off");
          ("/w/gen/validation_list.txt", "/w/speech/train/validation_list.txt")])
      true in
  run "/w/gen" "/w/speech" corpus st' = (Ok tt, st').
Proof.
  intros corpus st'.
  apply (run_again "/w/gen" "/w/speech" corpus (WorkdirState ∅ ∅ ∅ false)).
  vm_compute. reflexivity.
Defined.


(** ** The partition: missing lists, listed files, silence and test rows *)

Section Splits.

Implicit Types (c : corpus) (sp : split_paths) (v : pyval).

Lemma reference_list_raise (content : option string) (e : exn) :
  reference_list content = Raise e → e = FileNotFoundError ∧ content = None.
Proof. destruct content; [discriminate|]. intros [= <-]. auto. Qed.

Lemma compute_split_paths_raise c (e : exn) :
  compute_split_paths c = Raise e
  ↔ e = FileNotFoundError ∧ (validation_list_txt c = None ∨ testing_list_txt c = None).
Proof.
  unfold compute_split_paths.
  destruct (validation_list_txt c) as [vtext|], (testing_list_txt c) as [ttext|]; simpl;
    (split; [intros [= <-]; auto | intros [-> [?|?]]; done]) || (split; [discriminate|intros [_ [?|?]]; discriminate]).
Qed.

Lemma compute_split_paths_lists c (validation_paths train_test_paths : list string) :
  reference_list (validation_list_txt c) = Ok validation_paths →
  reference_list (testing_list_txt c) = Ok train_test_paths →
  ∃ sp, compute_split_paths c = Ok sp.
Proof. intros Hv Ht. unfold compute_split_paths. rewrite Hv, Ht. simpl. eauto. Qed.

(** X6: [get_split_paths] raises [FileNotFoundError] exactly when one of the two
    reference lists is missing from the train working directory, and the
    only other exception it raises is the [AssertionError] of the overlap
    check. *)
Theorem get_split_paths_raises c :
  (get_split_paths c = Raise FileNotFoundError
   ↔ validation_list_txt c = None ∨ testing_list_txt c = None)
  ∧ (∀ e, get_split_paths c = Raise e → e = FileNotFoundError ∨ e = AssertionError).
Proof.
  pose proof (compute_split_paths_raise c) as Hraise. unfold get_split_paths.
  destruct (compute_split_paths c) as [sp|e'] eqn:Hsp; simpl.
  - split.
    + split; [destruct (_ =? _); discriminate|].
      intros Hnone. pose proof (proj2 (Hraise FileNotFoundError) (conj eq_refl Hnone)) as E.
      discriminate E.
    + intros e. destruct (_ =? _); [discriminate|]. intros [= <-]. auto.
  - destruct (proj1 (Hraise e') eq_refl) as [-> Hnone]. split; [tauto|].
    intros e [= <-]. auto.
Qed.

Lemma filter_none {A : Type} (P : A → Prop) `{∀ x, Decision (P x)} (l : list A) :
  (∀ x, x ∈ l → ¬ P x) → filter P l = [].
Proof.
  induction l as [|y l IH]; intros Hnone; [reflexivity|].
  rewrite filter_cons_False by (apply Hnone; left).
  apply IH. intros x Hx. apply Hnone. right. exact Hx.
Qed.

Lemma filter_fmap_once {A B : Type} `{EqDecision B} (f : A → B) (l : list A) (x : A) :
  NoDup l → x ∈ l → (∀ y, y ∈ l → f y = f x → y = x) →
  filter (fun w => w = f x) (f <$> l) = [f x].
Proof.
  induction 1 as [|y l Hy Hnd IH]; intros Hx Hinj; [inversion Hx|].
  rewrite fmap_cons. destruct (decide (f y = f x)) as [E|Hne].
  - rewrite filter_cons_True by exact E. rewrite E. f_equal.
    assert (y = x) as -> by (apply Hinj; [left|exact E]).
    apply filter_none. intros w (z & -> & Hz)%list_elem_of_fmap Ez.
    assert (z = x) as -> by (apply Hinj; [right; exact Hz|exact Ez]). contradiction.
  - rewrite filter_cons_False by exact Hne.
    apply elem_of_cons in Hx as [->|Hx]; [contradiction|].
    apply IH; [exact Hx|]. intros z Hz. apply Hinj. right. exact Hz.
Qed.

Lemma filter_data_frame (paths : list pyval) (name : string) v :
  filter (fun r => sr_relpath r = v) (data_frame paths name)
  = data_frame (filter (fun w => w = v) paths) name.
Proof.
  unfold data_frame. induction paths as [|w paths IH]; [reflexivity|].
  cbn [map]. destruct (decide (w = v)) as [E|Hne].
  - rewrite !filter_cons_True by exact E. cbn [map]. f_equal. exact IH.
  - rewrite !filter_cons_False by exact Hne. exact IH.
Qed.

(** With relative lines in the validation list, no path is both a train
    and a validation path. *)
Lemma relative_lines_disjoint c sp (validation_paths : list string) :
  tree_names_ok (train_tree c) →
  reference_list (validation_list_txt c) = Ok validation_paths →
  Forall (fun p => startswith p "/" = false) validation_paths →
  compute_split_paths c = Ok sp →
  train_valid_disjoint sp.
Proof.
  intros Hok Hlist Hrel Hsp v Ht Hv.
  destruct (compute_split_paths_ok c sp Hsp) as (vps & tps & Hvps & _ & _ & Hvalid & Htrain).
  rewrite Hlist in Hvps. injection Hvps as <-. rewrite Forall_forall in Hrel.
  apply Htrain in Ht as [(q & -> & Hqa & _ & Hqv)|(q & -> & _ & Hq)];
    apply Hvalid in Hv as [(p & E & Hp)|(p & E & Hp)]; try discriminate.
  - destruct (audio_paths_form c q Hok Hqa) as (d & f & -> & Hd & _).
    apply join_train_relative in E; [|apply relative_entry; assumption|apply Hrel, Hp].
    rewrite E in Hqv. contradiction.
  - injection E as ->. contradiction.
Qed.

(** X7: when both reference lists are there and every line of the
    validation list is a relative path, the overlap check passes and
    [get_split_paths] returns its table. *)
Theorem get_split_paths_relative_lists c (validation_paths train_test_paths : list string) :
  tree_names_ok (train_tree c) →
  reference_list (validation_list_txt c) = Ok validation_paths →
  reference_list (testing_list_txt c) = Ok train_test_paths →
  Forall (fun p => startswith p "/" = false) validation_paths →
  ∃ rows, get_split_paths c = Ok rows.
Proof.
  intros Hok Hv Ht Hrel. destruct (compute_split_paths_lists c _ _ Hv Ht) as [sp Hsp].
  exists (split_table sp). apply get_split_paths_disjoint; [exact Hsp|].
  exact (relative_lines_disjoint c sp _ Hok Hv Hrel Hsp).
Qed.


(** X9: an audio file of a word folder that neither reference list names has
    exactly one row in the table, a train row. *)
Theorem train_row_once c (rows : list split_row)
    (validation_paths train_test_paths : list string) (p : string) :
  tree_names_ok (train_tree c) →
  reference_list (validation_list_txt c) = Ok validation_paths →
  reference_list (testing_list_txt c) = Ok train_test_paths →
  p ∈ audio_paths c → p ∉ validation_paths → p ∉ train_test_paths →
  get_split_paths c = Ok rows →
  filter (fun r => sr_relpath r = join_train c p) rows = [SplitRow (join_train c p) "train"].
Proof.
  intros Hok Hv Ht Hpa Hpv Hpt (sp & Hsp & Hdis & ->)%get_split_paths_ok.
  destruct (compute_split_paths_ok c sp Hsp) as (vps & tps & Hvps & Htps & Htest & _ & Htrain).
  rewrite Hv in Hvps. injection Hvps as <-. rewrite Ht in Htps. injection Htps as <-.
  assert (join_train c p ∈ train_rel_paths sp) as Hin.
  { apply Htrain. left. exists p. auto. }
  unfold split_table. rewrite !filter_app, !filter_data_frame.
  rewrite (filter_none _ (test_paths sp)); cycle 1.
  { intros w Hw ->. apply Htest in Hw as [q Hq]. discriminate. }
  rewrite (filter_none _ (validation_rel_paths sp)); cycle 1.
  { intros w Hw ->. exact (Hdis _ Hin Hw). }
  cbn [data_frame map app]. clear Htest Htrain Hdis Hin.
  unfold compute_split_paths in Hsp. rewrite Hv, Ht in Hsp. simpl in Hsp.
  injection Hsp as <-. cbn [train_rel_paths]. rewrite filter_app.
  change (map ?f ?l) with (f <$> l).
  rewrite (filter_none _ (PosixPath <$> _)); cycle 1.
  { intros w (q & -> & _)%list_elem_of_fmap. discriminate. }
  rewrite app_nil_r, filter_fmap_once; [reflexivity|apply NoDup_elements| |].
  - rewrite elem_of_elements, !elem_of_difference, !elem_of_list_to_set. auto.
  - intros q Hq E. rewrite elem_of_elements, !elem_of_difference, !elem_of_list_to_set in Hq.
    destruct Hq as [[Hqa _] _].
    destruct (audio_paths_form c q Hok Hqa) as (d & f & -> & Hd & _).
    destruct (audio_paths_form c p Hok Hpa) as (d' & f' & -> & Hd' & _).
    apply join_train_relative in E; [exact E|apply relative_entry; assumption..].
Qed.


(** X11: the test rows are the [.wav] files found two levels below
    [<test workdir>/test], whatever their folder; neither reference list
    nor the train directory has a say in them. *)
Theorem test_rows c (rows : list split_row) v :
  get_split_paths c = Ok rows →
  SplitRow v "test" ∈ rows
  ↔ ∃ d f, (d, f) ∈ test_tree c ∧ glob_wav f = true
      ∧ v = PosixPath (Pathlib.joinpath (Pathlib.parts (test_workdir c)) "test" ++ [d; f]).
Proof.
  intros (sp & Hsp & _ & ->)%get_split_paths_ok.
  unfold compute_split_paths in Hsp.
  destruct (reference_list (validation_list_txt c)); [|discriminate].
  destruct (reference_list (testing_list_txt c)); [|discriminate].
  simpl in Hsp. injection Hsp as <-.
  rewrite split_table_elem. cbn [sr_split sr_relpath test_paths].
  change (map ?f ?l) with (f <$> l). rewrite list_elem_of_fmap.
  setoid_rewrite glob_elem. split.
  - intros [[_ (p & -> & d & f & -> & Hin & _ & Hf)]|[[E _]|[E _]]]; [|discriminate..].
    exists d, f. auto.
  - intros (d & f & Hin & Hf & ->). left. split; [reflexivity|].
    eexists. split; [reflexivity|]. exists d, f. auto.
Qed.

(** X16: every line of [validation_list.txt] gives a validation row,
    whether or not a file of that name was found, while every train row is
    a [.wav] file found two levels below the train directory. *)
Theorem rows_and_files c (rows : list split_row) (validation_paths : list string) :
  get_split_paths c = Ok rows →
  reference_list (validation_list_txt c) = Ok validation_paths →
  (∀ p, p ∈ validation_paths → SplitRow (join_train c p) "valid" ∈ rows)
  ∧ (∀ r, r ∈ rows → sr_split r = "train" →
       ∃ d f, (d, f) ∈ train_tree c ∧ glob_wav f = true
         ∧ (sr_relpath r = join_train c (Pathlib.str [d; f])
            ∨ sr_relpath r = PosixPath (train_path c ++ [d; f]))).
Proof.
  intros (sp & Hsp & _ & ->)%get_split_paths_ok Hv.
  destruct (compute_split_paths_ok c sp Hsp) as (vps & tps & Hvps & _ & _ & Hvalid & Htrain).
  rewrite Hv in Hvps. injection Hvps as <-. split.
  - intros p Hp. apply split_table_elem. right. left. split; [reflexivity|].
    apply Hvalid. left. exists p. auto.
  - intros r [[E _]|[[E _]|[_ Hr]]]%split_table_elem Htr; [congruence..|].
    apply Htrain in Hr as [(p & -> & Hp & _)|(p & -> & Hp & _)].
    + unfold audio_paths in Hp.
      apply list_elem_of_fmap in Hp as (q & -> & (d & f & -> & Hin & _ & Hf)%glob_elem).
      exists d, f. rewrite drop_app_length. auto.
    + apply glob_elem in Hp as (d & f & -> & Hin & _ & Hf). exists d, f. auto.
Qed.

End Splits.

(** ** Slug and label by the form of the path *)

Section PathForms.

Lemma endswith_split (s t : string) : endswith s t = true → ∃ pre, s = pre +:+ t.
Proof.
  induction s as [|a s IH]; cbn [endswith].
  - rewrite orb_false_r. intros ->%String.eqb_eq. exists "". reflexivity.
  - intros [->%String.eqb_eq|H]%orb_true_iff; [exists ""; reflexivity|].
    destruct (IH H) as [pre ->]. exists (String a pre). reflexivity.
Qed.

Lemma endswith_append (a t : string) : endswith (a +:+ t) t = true.
Proof.
  induction a as [|x a IH]; cbn [String.append].
  - destruct t; cbn [endswith]; rewrite String.eqb_refl; reflexivity.
  - cbn [endswith]. rewrite IH. apply orb_true_r.
Qed.

(** [os.path.join(a, "folder/file")] ends in [/folder/file], or is
    [folder/file] itself for an empty [a]. *)
Lemma join_nested (a d f : string) :
  entry_name d →
  (∃ pre, OsPath.join a [d +:+ "/" +:+ f] = pre +:+ "/" +:+ d +:+ "/" +:+ f)
  ∨ OsPath.join a [d +:+ "/" +:+ f] = d +:+ "/" +:+ f.
Proof.
  intros Hd. unfold OsPath.join. cbn [fold_left]. unfold OsPath.join_step.
  rewrite (relative_entry d f Hd).
  destruct (String.eqb_spec a "") as [->|_]; [right; reflexivity|]. cbn [orb]. left.
  destruct (endswith a "/") eqn:Hend.
  - apply endswith_split in Hend as [pre ->]. exists pre. rewrite append_assoc. reflexivity.
  - exists a. reflexivity.
Qed.

Lemma split_components (c : ascii) (s x : string) : x ∈ Py.split c s → free_of c x.
Proof.
  revert x. induction s as [|a s IH]; intros x; cbn [Py.split].
  - intros ->%list_elem_of_singleton. reflexivity.
  - destruct (Ascii.eqb a c) eqn:E.
    + intros [->|H]%elem_of_cons; [reflexivity|exact (IH _ H)].
    + pose proof (split_nonempty c s) as Hne. destruct (Py.split c s) as [|w ws]; [done|].
      intros [->|Hx]%elem_of_cons.
      * unfold free_of. cbn [contains]. rewrite E. apply IH. left.
      * apply IH. right. exact Hx.
Qed.

Lemma join_sep_nested (xs : list string) (d f : string) :
  xs ≠ [] →
  Pathlib.join_sep (xs ++ [d; f]) = Pathlib.join_sep xs +:+ "/" +:+ d +:+ "/" +:+ f.
Proof.
  induction xs as [|x xs IH]; [done|]. intros _. destruct xs as [|y xs].
  - reflexivity.
  - change (Pathlib.join_sep ((x :: y :: xs) ++ [d; f]))
      with (x +:+ "/" +:+ Pathlib.join_sep ((y :: xs) ++ [d; f])).
    rewrite IH by done.
    change (Pathlib.join_sep (x :: y :: xs)) with (x +:+ "/" +:+ Pathlib.join_sep (y :: xs)).
    rewrite !append_assoc. reflexivity.
Qed.

(** [str] of a path object that ends in [folder, file], when the path
    before them is the parts of a text followed by plain names: the text
    ends in [/folder/file] or is [folder/file]. *)
Lemma str_nested (s : string) (mid : list string) (d f : string) :
  Forall (fun x => startswith x "/" = false) mid → entry_name d →
  (∃ pre, Pathlib.str (Pathlib.parts s ++ mid ++ [d; f]) = pre +:+ "/" +:+ d +:+ "/" +:+ f)
  ∨ Pathlib.str (Pathlib.parts s ++ mid ++ [d; f]) = d +:+ "/" +:+ f.
Proof.
  intros Hmid Hd.
  assert (∀ l, Forall (fun x => startswith x "/" = false) l →
            (∃ pre, Pathlib.join_sep (l ++ [d; f]) = pre +:+ "/" +:+ d +:+ "/" +:+ f)
            ∨ Pathlib.join_sep (l ++ [d; f]) = d +:+ "/" +:+ f) as Hsep.
  { intros [|x l] _; [right; reflexivity|]. left. eexists. apply join_sep_nested. done. }
  assert (∀ l, Forall (fun x => startswith x "/" = false) l →
            (∃ pre, Pathlib.str (l ++ [d; f]) = pre +:+ "/" +:+ d +:+ "/" +:+ f)
            ∨ Pathlib.str (l ++ [d; f]) = d +:+ "/" +:+ f) as Hplain.
  { intros l Hl. specialize (Hsep l Hl). destruct l as [|x l].
    - right. cbn [app Pathlib.str]. unfold Pathlib.is_root. rewrite (startswith_free _ _ (proj2 Hd)). reflexivity.
    - cbn [app Pathlib.str]. unfold Pathlib.is_root. inversion Hl as [|? ? Hx _]; subst.
      rewrite Hx. exact Hsep. }
  assert (∀ root l, root = "/" ∨ root = "//" →
            Forall (fun x => startswith x "/" = false) l →
            ∃ pre, Pathlib.str (root :: l ++ [d; f]) = pre +:+ "/" +:+ d +:+ "/" +:+ f)
    as Hrooted.
  { intros root l Hroot Hl. cbn [Pathlib.str]. unfold Pathlib.is_root.
    assert (startswith root "/" = true) as -> by (destruct Hroot as [-> | ->]; reflexivity).
    destruct (Hsep l Hl) as [[pre ->]| ->].
    - exists (root +:+ pre). rewrite append_assoc. reflexivity.
    - destruct Hroot as [-> | ->]; [exists ""|exists "/"]; reflexivity. }
  unfold Pathlib.parts, Pathlib.splitroot.
  set (comps := fun t => filter (fun x => Pathlib.kept x = true) (Py.split "/" t)).
  assert (∀ t, Forall (fun x => startswith x "/" = false) (comps t ++ mid)) as Hcomps.
  { intros t. apply Forall_app. split; [|exact Hmid]. apply Forall_forall.
    intros x [_ Hx%split_components]%list_elem_of_filter. apply startswith_free, Hx. }
  destruct (startswith s "/").
  - destruct (_ =? 2); cbn [String.eqb Ascii.eqb Bool.eqb]; fold (comps (lstrip "/" s)); left.
    + rewrite <- app_comm_cons, app_assoc. apply Hrooted; auto.
    + rewrite <- app_comm_cons, app_assoc. apply Hrooted; auto.
  - cbn [String.eqb]. fold (comps s). rewrite app_assoc. apply Hplain, Hcomps.
Qed.

Lemma immediate_parent_join (a d f : string) :
  entry_name d → free_of "/" f →
  immediate_parent (OsPath.join a [d +:+ "/" +:+ f]) = d.
Proof.
  intros Hd Hf. destruct (join_nested a d f Hd) as [[pre ->]| ->].
  - apply immediate_parent_nested; assumption.
  - apply immediate_parent_relative; assumption.
Qed.

Lemma immediate_parent_str (s : string) (mid : list string) (d f : string) :
  Forall (fun x => startswith x "/" = false) mid → entry_name d → free_of "/" f →
  immediate_parent (Pathlib.str (Pathlib.parts s ++ mid ++ [d; f])) = d.
Proof.
  intros Hmid Hd Hf. destruct (str_nested s mid d f Hmid Hd) as [[pre ->]| ->].
  - apply immediate_parent_nested; assumption.
  - apply immediate_parent_relative; assumption.
Qed.

Lemma slugify_file_name_join (a d stem ext : string) :
  entry_name d → d ≠ "." → stem_name stem → ext_name ext →
  slugify_file_name (Str (OsPath.join a [d +:+ "/" +:+ stem +:+ "." +:+ ext]))
  = Ok (Slugify.slugify (d +:+ "/" +:+ stem)).
Proof.
  intros Hd Hdot Hstem Hext. destruct (join_nested a d (stem +:+ "." +:+ ext) Hd) as [[pre ->]| ->].
  - apply slugify_file_name_nested; assumption.
  - apply slugify_file_name_relative; assumption.
Qed.

End PathForms.

Section MetadataFields.

Context {process : Type} (filename_to_int_hash : process → string → Z).

(** X12: in the table of [get_process_metadata], the row of a file
    [folder/stem.ext] (a train or validation file joined to the train
    directory, a silence clip, or a test file) has the slug of
    [folder/stem], the key of that slug, and as label the folder when it is
    a target word or the silence folder, and the unknown label otherwise. *)
Theorem metadata_row_fields (proc : process) (c : corpus) (table : list meta_row)
    (m : meta_row) (d stem ext : string) :
  get_process_metadata filename_to_int_hash proc c = Ok table →
  m ∈ table →
  entry_name d → d ≠ "." → stem_name stem → ext_name ext →
  relpath m = join_train c (d +:+ "/" +:+ stem +:+ "." +:+ ext)
  ∨ relpath m = PosixPath (train_path c ++ [d; stem +:+ "." +:+ ext])
  ∨ relpath m = PosixPath (Pathlib.joinpath (Pathlib.parts (test_workdir c)) "test"
                             ++ [d; stem +:+ "." +:+ ext]) →
  slug m = Slugify.slugify (d +:+ "/" +:+ stem)
  ∧ subsample_key m
    = get_subsample_key filename_to_int_hash proc (Slugify.slugify (d +:+ "/" +:+ stem))
  ∧ label m = (if decide (d ∈ WORDS ∨ d = SILENCE) then d else UNKNOWN).
Proof.
  intros (rows & _ & Hrows)%get_process_metadata_ok Hm Hd Hdot Hstem Hext Hpath.
  destruct (Forall2_elem_r _ _ _ _ Hrows Hm) as (r & _ & Hrel & _ & Hslug & Hkey & Hlabel).
  rewrite <- Hrel in *. clear Hrel Hrows Hm.
  destruct (stem_entry stem ext Hstem Hext) as [[_ Hfile] _].
  assert (slugify_file_name (relpath m) = Ok (Slugify.slugify (d +:+ "/" +:+ stem))
          ∧ immediate_parent (fspath (relpath m)) = d) as [Hs Hparent].
  { destruct Hpath as [-> |[-> | ->]].
    - split; [apply slugify_file_name_join; assumption|].
      apply immediate_parent_join; assumption.
    - split; [apply slugify_file_name_parts; assumption|]. cbn [fspath].
      apply (immediate_parent_str (train_workdir c) []); [constructor|assumption..].
    - split; [apply slugify_file_name_parts; assumption|]. cbn [fspath].
      unfold Pathlib.joinpath. rewrite <- app_assoc.
      apply (immediate_parent_str (test_workdir c) (Pathlib.parts "test"));
        [repeat constructor|assumption..]. }
  rewrite Hs in Hslug. injection Hslug as Hslug. rewrite Hkey, <- Hslug.
  split; [reflexivity|]. split; [reflexivity|].
  rewrite Hlabel, apply_label_cases. cbv zeta. rewrite Hparent. reflexivity.
Qed.

End MetadataFields.

(** ** The names of the silence clips, and what [run] leaves alone *)

Section ClipNames.

Context {sample : Type}.

(** [splitext] of a bare file name [stem.ext]. *)
Lemma splitext_bare (stem ext : string) :
  stem_name stem → ext_name ext →
  OsPath.splitext (stem +:+ "." +:+ ext) = (stem, "." +:+ ext).
Proof.
  intros [Hstem (c & stem' & -> & Hc)] [Hext1 Hext2].
  remember (String c stem' +:+ "." +:+ ext) as p eqn:Hp.
  assert (rfind "/" p = -1) as Hsep.
  { rewrite Hp. apply rfind_free. unfold free_of in *. rewrite contains_append, Hstem.
    exact Hext1. }
  assert (rfind "." p = slen (String c stem')) as Hdot.
  { rewrite Hp. change (String c stem' +:+ "." +:+ ext) with (String c stem' +:+ String "." ext).
    apply rfind_last, Hext2. }
  unfold OsPath.splitext. rewrite Hsep, Hdot. unfold slen. cbn [String.length].
  destruct (Z.ltb_spec (-1) (Z.of_nat (S (String.length stem')))); [|lia].
  replace (Z.to_nat _) with (S (String.length stem')) by lia.
  assert (String.get (Z.to_nat (-1 + 1)) p = Some c) as Hget by (rewrite Hp; reflexivity).
  cbn [OsPath.splitext_loop]. rewrite Hget.
  destruct (Ascii.eqb_spec c "."); [done|].
  unfold slice_to, slice_from. rewrite Nat2Z.id, Hp.
  change (S (String.length stem')) with (String.length (String c stem')).
  rewrite str_take_append, str_drop_append. reflexivity.
Qed.

Lemma startswith_dash (m stem rest : string) :
  free_of "-" m → startswith (stem +:+ "-" +:+ rest) m = startswith stem m.
Proof.
  unfold free_of. revert stem. induction m as [|b m IH]; intros stem Hm; [reflexivity|].
  cbn [contains] in Hm. apply orb_false_iff in Hm as [Hb Hm].
  destruct stem as [|a stem]; cbn [String.append startswith].
  - rewrite Ascii.eqb_sym, Hb. reflexivity.
  - rewrite IH by exact Hm. reflexivity.
Qed.

Lemma startswith_length (s m : string) :
  startswith s m = true → (String.length m ≤ String.length s)%nat.
Proof.
  revert s. induction m as [|b m IH]; intros s; cbn [startswith String.length]; [lia|].
  destruct s as [|a s]; [discriminate|]. intros [_ H]%andb_true_iff.
  specialize (IH _ H). cbn [String.length]. lia.
Qed.

(** The name of a clip of [stem.wav] under the two patterns the metadata
    stage looks silence clips up with. *)
Lemma clip_name_globs (stem : string) (start : Z) :
  let filename := stem +:+ "-" +:+ str_of_int start +:+ ".wav" in
  glob_wav filename = true
  ∧ glob_running_tap_wav filename = startswith stem "running_tap".
Proof.
  intros filename. unfold glob_wav, glob_running_tap_wav.
  assert (endswith filename ".wav" = true) as ->.
  { unfold filename. rewrite <- !append_assoc. apply endswith_append. }
  split; [reflexivity|]. unfold filename at 1.
  rewrite startswith_dash by reflexivity. rewrite andb_true_r.
  destruct (startswith stem "running_tap") eqn:Htap; [|reflexivity]. cbn [andb].
  apply startswith_length in Htap. apply Nat.leb_le. unfold filename.
  rewrite !length_append. cbn [String.length] in *. lia.
Qed.

Lemma basename_str (s : string) (mid : list string) (d f : string) :
  Forall (fun x => startswith x "/" = false) mid → entry_name d → free_of "/" f →
  OsPath.basename (Pathlib.str (Pathlib.parts s ++ mid ++ [d; f])) = f.
Proof.
  intros Hmid Hd Hf. destruct (str_nested s mid d f Hmid Hd) as [[pre ->]| ->].
  - replace (pre +:+ "/" +:+ d +:+ "/" +:+ f) with ((pre +:+ "/" +:+ d) +:+ "/" +:+ f)
      by (rewrite !append_assoc; reflexivity).
    apply basename_after_slash, Hf.
  - apply basename_after_slash, Hf.
Qed.

(** X13: the clips [run] cuts from the recording [stem.wav] of the
    background folder are written to [<silence dir>/stem-<offset>.wav];
    the metadata stage finds every such name with [*.wav], and with
    [running_tap*.wav] exactly when [stem] starts with [running_tap]. *)
Theorem silence_clip_names (silence_dir train_workdir stem : string) (snd : sound sample)
    (clips : list (string * sound sample)) :
  stem_name stem →
  recording_clips silence_dir
    (Pathlib.joinpath (Pathlib.parts train_workdir) "train"
       ++ [BACKGROUND_NOISE; stem +:+ ".wav"]) snd = Ok clips →
  Forall (fun kv =>
            ∃ start, let filename := stem +:+ "-" +:+ str_of_int start +:+ ".wav" in
              kv.1 = OsPath.join silence_dir [filename]
              ∧ kv.2 = Sound (slice (frames snd) start (start + samplerate snd)) (samplerate snd)
              ∧ glob_wav filename = true
              ∧ glob_running_tap_wav filename = startswith stem "running_tap") clips.
Proof.
  intros Hstem. unfold recording_clips, Pathlib.joinpath. rewrite <- app_assoc.
  assert (ext_name "wav") as Hext by (split; reflexivity).
  destruct (stem_entry stem "wav" Hstem Hext) as [[_ Hfile] _].
  change (stem +:+ "." +:+ "wav") with (stem +:+ ".wav") in Hfile.
  rewrite basename_str; [|repeat constructor|split; [discriminate|reflexivity]|exact Hfile].
  change (stem +:+ ".wav") with (stem +:+ "." +:+ "wav").
  rewrite splitext_bare by assumption. cbn [fst Datatypes.snd].
  destruct (clip_starts _ _) as [starts|]; [|discriminate]. intros [= <-].
  unfold clips_of. apply Forall_forall. intros kv (start & -> & _)%list_elem_of_fmap.
  exists start. cbv zeta. cbn [fst Datatypes.snd].
  destruct (clip_name_globs stem start) as [Hwav Htap]. auto.
Qed.

End ClipNames.

Section RunFrame.

Context {sample : Type}.

Lemma clips_written_keys (silence_dir : string) (recs : list (Pathlib.path * sound sample))
    (kv : string * sound sample) :
  kv ∈ (clips_written silence_dir recs).1 →
  ∃ audio_path snd start,
    (audio_path, snd) ∈ recs
    ∧ kv.1 = clip_path silence_dir
               (OsPath.splitext (OsPath.basename (Pathlib.str audio_path))).1
               (OsPath.splitext (OsPath.basename (Pathlib.str audio_path))).2 start.
Proof.
  induction recs as [|[audio_path snd] recs IH]; cbn [clips_written].
  - intros []%elem_of_nil.
  - destruct (recording_clips silence_dir audio_path snd) as [clips|e] eqn:Hclips.
    + destruct (clips_written silence_dir recs) as [more outcome]. cbn [fst] in *.
      intros [Hin|Hin]%elem_of_app.
      * unfold recording_clips in Hclips.
        destruct (clip_starts _ _) as [starts|]; [|discriminate]. injection Hclips as <-.
        unfold clips_of in Hin. apply list_elem_of_fmap in Hin as (start & -> & _).
        exists audio_path, snd, start. split; [left|reflexivity].
      * destruct (IH Hin) as (p & s & start & Hp & E). exists p, s, start.
        split; [right; exact Hp|exact E].
    + intros []%elem_of_nil.
Qed.

Lemma links_made_sub (ds : gset string) (pairs : list (string * string))
    (kv : string * string) :
  kv ∈ (links_made ds pairs).1 → kv ∈ pairs.
Proof.
  induction pairs as [|[link target] pairs IH]; cbn [links_made]; [auto|].
  destruct (decide (link ∈ ds)); [intros []%elem_of_nil|].
  destruct (links_made ds pairs) as [more outcome]. cbn [fst] in *.
  intros [->|Hin]%elem_of_cons; [left|right; auto].
Qed.

(** X14: whether [run] returns or raises, it touches nothing but its own
    paths: a path that is neither the file of a clip nor the link of an
    entry of [train/] keeps its file and its link, no directory is removed,
    and the only directory added is the silence folder. *)
Theorem run_frame (workdir train_workdir : string) (corpus : train_corpus sample)
    (st : workdir_state sample) (k : string) :
  let train_path := Pathlib.joinpath (Pathlib.parts train_workdir) "train" in
  let silence_dir := OsPath.join workdir [SILENCE] in
  let st' := (run workdir train_workdir corpus st).2 in
  (∀ audio_path snd start, (audio_path, snd) ∈ glob_background train_path corpus →
     k ≠ clip_path silence_dir
           (OsPath.splitext (OsPath.basename (Pathlib.str audio_path))).1
           (OsPath.splitext (OsPath.basename (Pathlib.str audio_path))).2 start) →
  (∀ name is_dir, (name, is_dir) ∈ train_entries corpus → k ≠ OsPath.join workdir [name]) →
  files st' !! k = files st !! k
  ∧ links st' !! k = links st !! k
  ∧ dirs st ⊆ dirs st'
  ∧ dirs st' ⊆ {[silence_dir]} ∪ dirs st.
Proof.
  intros train_path silence_dir st' Hclip Hlink. unfold st'. rewrite run_outcome. cbv zeta.
  fold train_path silence_dir.
  set (recs := glob_background train_path corpus) in *.
  set (pairs := flat_map (entry_links workdir train_path) (train_entries corpus)).
  assert (k ∉ ((clips_written silence_dir recs).1).*1) as Hk1.
  { intros (kv & -> & (p & s & start & Hp & E)%clips_written_keys)%list_elem_of_fmap.
    exact (Hclip p s start Hp E). }
  assert (k ∉ ((links_made ({[silence_dir]} ∪ dirs st) pairs).1).*1) as Hk2.
  { intros (kv & -> & Hin%links_made_sub)%list_elem_of_fmap.
    apply links_elem in Hin as (name & is_dir & Hin & -> & _). exact (Hlink _ _ Hin eq_refl). }
  destruct recs as [|r recs'] eqn:Hrecs.
  { cbn [Datatypes.snd]. repeat split; set_solver. }
  rewrite <- Hrecs in *.
  destruct (clips_written silence_dir recs).2.
  - cbn [Datatypes.snd dirs files links]. unfold unlink_all, write_all, link_all.
    rewrite delete_all_lookup, decide_False by exact Hk2.
    rewrite !insert_all_notin by assumption. repeat split; set_solver.
  - cbn [Datatypes.snd dirs files links]. unfold write_all.
    rewrite insert_all_notin by assumption. repeat split; set_solver.
Qed.

End RunFrame.

(** ** The GPU memory maximum *)

Section GpuProofs.

Import GpuMaxMem.

Lemma memory_used_le (a b : device) :
  QArith_base.Qle_bool (memory_used a) (memory_used b) = (used a <=? used b).
Proof.
  apply eq_true_iff_eq. rewrite QArith_base.Qle_bool_iff, Z.leb_le.
  unfold memory_used, QArith_base.Qle, QArith_base.Qdiv, QArith_base.Qmult,
    QArith_base.Qinv, QArith_base.inject_Z. cbn. lia.
Qed.

Lemma measure_all_cons (d : device) (devs : list device) (m : option QArith_base.Q) :
  measure_all (d :: devs) m = measure_all devs (measure d m).2.
Proof. reflexivity. Qed.

Lemma measure_all_from (devs : list device) (dev0 : device) :
  ∃ dev, dev ∈ dev0 :: filter (fun d => cuda_is_available d = true) devs
    ∧ measure_all devs (Some (memory_used dev0)) = Some (memory_used dev)
    ∧ ∀ dev', dev' ∈ dev0 :: filter (fun d => cuda_is_available d = true) devs →
        used dev' ≤ used dev.
Proof.
  revert dev0. induction devs as [|d devs IH]; intros dev0.
  - exists dev0. split; [left|]. split; [reflexivity|].
    intros dev' ->%list_elem_of_singleton. lia.
  - rewrite measure_all_cons. unfold measure.
    cbn [Datatypes.snd]. destruct (cuda_is_available d) eqn:Hd.
    + rewrite filter_cons_True by exact Hd. rewrite memory_used_le.
      destruct (Z.leb_spec (used d) (used dev0)); cbn [negb].
      * destruct (IH dev0) as (dev & Hin & -> & Hmax). exists dev. split; [|split].
        -- apply elem_of_cons in Hin as [->|Hin]; [left|right; right; exact Hin].
        -- reflexivity.
        -- intros dev' [->|[->|Hin']%elem_of_cons]%elem_of_cons.
           ++ apply Hmax. left.
           ++ transitivity (used dev0); [assumption|]. apply Hmax. left.
           ++ apply Hmax. right. exact Hin'.
      * destruct (IH d) as (dev & Hin & -> & Hmax). exists dev. split; [|split].
        -- right. exact Hin.
        -- reflexivity.
        -- intros dev' [->|Hin']%elem_of_cons; [|exact (Hmax _ Hin')].
           transitivity (used d); [lia|]. apply Hmax. left.
    + rewrite filter_cons_False by (rewrite Hd; discriminate). apply IH.
Qed.

(** X15: after [reset], calls of [measure] keep the running maximum: the
    global, which is also what each call returns, is the reading in GB of
    the call that found the most bytes used among those made while CUDA was
    available, and [None] when there was no such call. *)
Theorem measure_running_max (devs : list device) (m : option QArith_base.Q) :
  let seen := filter (fun d => cuda_is_available d = true) devs in
  match measure_all devs (reset m) with
  | None => seen = []
  | Some q =>
      ∃ dev, dev ∈ seen ∧ q = memory_used dev ∧ ∀ dev', dev' ∈ seen → used dev' ≤ used dev
  end
  ∧ ∀ dev m', (measure dev m').1 = (measure dev m').2.
Proof.
  cbv zeta. split; [|reflexivity].
  unfold reset. induction devs as [|d devs IH]; [reflexivity|].
  rewrite measure_all_cons. unfold measure.
  cbn [Datatypes.snd]. destruct (cuda_is_available d) eqn:Hd.
  - rewrite filter_cons_True by exact Hd.
    destruct (measure_all_from devs d) as (dev & Hin & -> & Hmax). exists dev. auto.
  - rewrite filter_cons_False by (rewrite Hd; discriminate). exact IH.
Qed.

End GpuProofs.

(** ** Train rows without repetition, and a table for every partition *)

Section TrainRows.

Implicit Types (c : corpus) (sp : split_paths) (v : pyval).

Lemma filter_split_data_frame (paths : list pyval) (name other : string) :
  filter (fun r => sr_split r = other) (data_frame paths name)
  = if decide (name = other) then data_frame paths name else [].
Proof.
  unfold data_frame. induction paths as [|w paths IH]; [destruct (decide _); reflexivity|].
  cbn [map]. destruct (decide (name = other)) as [E|Hne].
  - rewrite filter_cons_True by exact E. f_equal. exact IH.
  - rewrite filter_cons_False by exact Hne. exact IH.
Qed.

(** X18: no path is twice a train row: the train rows are made from sets
    (a validation line that is repeated, by contrast, is a row each time). *)
Theorem train_rows_nodup c (rows : list split_row) :
  tree_names_ok (train_tree c) →
  get_split_paths c = Ok rows →
  NoDup (sr_relpath <$> filter (fun r => sr_split r = "train") rows).
Proof.
  intros Hok (sp & Hsp & _ & ->)%get_split_paths_ok.
  unfold split_table. rewrite !filter_app, !filter_split_data_frame.
  rewrite !decide_False by discriminate. rewrite decide_True by reflexivity.
  cbn [app]. rewrite data_frame_relpath.
  unfold compute_split_paths in Hsp.
  destruct (reference_list (validation_list_txt c)) as [vps|]; [|discriminate].
  destruct (reference_list (testing_list_txt c)) as [tps|]; [|discriminate].
  simpl in Hsp. injection Hsp as <-. cbn [train_rel_paths].
  change (map ?f ?l) with (f <$> l). apply NoDup_app. split; [|split].
  - apply NoDup_fmap_2_strong; [|apply NoDup_elements].
    intros p q Hp Hq E.
    rewrite elem_of_elements, !elem_of_difference, !elem_of_list_to_set in Hp, Hq.
    destruct Hp as [[Hp _] _], Hq as [[Hq _] _].
    destruct (audio_paths_form c p Hok Hp) as (d & f & -> & Hd & _).
    destruct (audio_paths_form c q Hok Hq) as (d' & f' & -> & Hd' & _).
    apply join_train_relative in E; [exact E|apply relative_entry; assumption..].
  - intros v (p & -> & _)%list_elem_of_fmap (q & E & _)%list_elem_of_fmap. discriminate.
  - apply NoDup_fmap_2; [|apply NoDup_elements]. intros p q [= E]. exact E.
Qed.

End TrainRows.

Section MetadataReturns.

Context {process : Type} (filename_to_int_hash : process → string → Z).

Lemma last2_nonempty {A : Type} (l : list A) : l ≠ [] → Pathlib.last2 l ≠ [].
Proof.
  intros Hl E. apply (f_equal length) in E. unfold Pathlib.last2 in E.
  rewrite length_drop in E. destruct l; [done|]. cbn [length] in E. lia.
Qed.

Lemma slugify_file_name_returns (v : pyval) :
  Path v ≠ [] → ∃ s, slugify_file_name v = Ok s.
Proof.
  intros Hv%last2_nonempty. unfold slugify_file_name.
  destruct (Pathlib.last2 (Path v)); [done|]. eauto.
Qed.

Lemma parts_rooted (s : string) : startswith s "/" = true → Pathlib.parts s ≠ [].
Proof.
  intros Hs. unfold Pathlib.parts, Pathlib.splitroot. rewrite Hs.
  destruct (_ =? 2); discriminate.
Qed.

Lemma join_sep_head (x : string) (xs : list string) :
  Pathlib.join_sep (x :: xs) = x ∨ ∃ w, Pathlib.join_sep (x :: xs) = x +:+ String "/" w.
Proof. destruct xs as [|y xs]; [left; reflexivity|right]. eexists. reflexivity. Qed.

(** The text of a working directory that has parts starts with a slash or
    with a component that is kept. *)
Lemma str_parts_head (wd : string) :
  Pathlib.parts wd ≠ [] →
  let a := Pathlib.str (Pathlib.parts wd) in
  startswith a "/" = true
  ∨ ∃ x, Pathlib.kept x = true ∧ free_of "/" x ∧ (a = x ∨ ∃ w, a = x +:+ String "/" w).
Proof.
  unfold Pathlib.parts, Pathlib.splitroot.
  destruct (startswith wd "/") eqn:Hroot.
  - intros _. left. destruct (_ =? 2); reflexivity.
  - cbn [String.eqb]. intros Hne. right.
    destruct (filter _ _) as [|x xs] eqn:Hcomps; [done|].
    assert (x ∈ filter (fun x => Pathlib.kept x = true) (Py.split "/" wd)) as Hx
      by (rewrite Hcomps; left).
    apply list_elem_of_filter in Hx as [Hkept Hx%split_components].
    exists x. split; [exact Hkept|]. split; [exact Hx|].
    cbn [Pathlib.str]. unfold Pathlib.is_root. rewrite (startswith_free _ _ Hx).
    apply join_sep_head.
Qed.

Lemma parts_component_first (x w : string) :
  Pathlib.kept x = true → free_of "/" x → Pathlib.parts (x +:+ String "/" w) ≠ [].
Proof.
  intros Hkept Hx. unfold Pathlib.parts, Pathlib.splitroot.
  assert (startswith (x +:+ String "/" w) "/" = false) as ->.
  { destruct x as [|c x]; [discriminate|]. unfold free_of in Hx. cbn in *.
    apply orb_false_iff in Hx as [-> _]. reflexivity. }
  cbn [String.eqb]. rewrite split_append, (split_free _ _ Hx). cbn [app].
  rewrite filter_cons_True by exact Hkept. discriminate.
Qed.

(** A path joined to a working directory that has parts has parts. *)
Lemma parts_join_nonempty (wd p : string) :
  Pathlib.parts wd ≠ [] →
  Pathlib.parts (OsPath.join (Pathlib.str (Pathlib.parts wd)) [p]) ≠ [].
Proof.
  intros Hwd. unfold OsPath.join. cbn [fold_left]. unfold OsPath.join_step.
  destruct (startswith p "/") eqn:Hp; [apply parts_rooted, Hp|].
  destruct (str_parts_head wd Hwd) as [Ha|(x & Hkept & Hx & Ha)].
  - apply parts_rooted. destruct (Pathlib.str (Pathlib.parts wd)) as [|c a]; [discriminate|].
    cbn in Ha. destruct (_ || _); cbn; exact Ha.
  - destruct Ha as [-> |[w ->]].
    + assert (x ≠ "") as Hx0 by (intros ->; discriminate).
      destruct (String.eqb_spec x ""); [done|]. rewrite (endswith_free _ _ Hx). cbn [orb].
      apply parts_component_first; assumption.
    + destruct (_ || _); rewrite append_assoc; cbn [String.append];
        apply parts_component_first; assumption.
Qed.

Lemma compute_split_paths_test (c : corpus) (sp : split_paths) (v : pyval) :
  compute_split_paths c = Ok sp → v ∈ test_paths sp →
  ∃ d f, v = PosixPath (Pathlib.joinpath (Pathlib.parts (test_workdir c)) "test" ++ [d; f]).
Proof.
  unfold compute_split_paths.
  destruct (reference_list (validation_list_txt c)); [|discriminate].
  destruct (reference_list (testing_list_txt c)); [|discriminate].
  cbn [mbind result_bind Py.bind mret result_ret]. intros [= <-]. cbn [test_paths].
  change (map ?f ?l) with (f <$> l).
  intros (p & -> & (d & f & -> & _)%glob_elem)%list_elem_of_fmap. eauto.
Qed.

Lemma mapM_total {A B : Type} (f : A → result B) (xs : list A) :
  Forall (fun x => ∃ y, f x = Ok y) xs → ∃ ys, mapM f xs = Ok ys.
Proof.
  induction 1 as [|x xs [y Hy] _ [ys IH]]; [exists []; reflexivity|].
  exists (y :: ys). cbn [mapM]. rewrite Hy, IH. reflexivity.
Qed.

(** X17: when the train working directory has at least one part (it is
    not [.] or empty), every path of the table has a slug, so
    [get_process_metadata] returns a table whenever [get_split_paths] does:
    the [TypeError] of [os.path.join] without arguments cannot occur. *)
Theorem metadata_returns (proc : process) (c : corpus) (rows : list split_row) :
  train_path c ≠ [] →
  get_split_paths c = Ok rows →
  ∃ table, get_process_metadata filename_to_int_hash proc c = Ok table
           ∧ length table = length rows.
Proof.
  intros Hwd Hrows. unfold get_process_metadata. rewrite Hrows. cbn.
  assert (Forall (fun r => Path (sr_relpath r) ≠ []) rows) as Hparts.
  { apply get_split_paths_ok in Hrows as (sp & Hsp & _ & ->).
    destruct (compute_split_paths_ok c sp Hsp) as (vps & tps & _ & _ & _ & Hvalid & Htrain).
    assert (∀ base pd pf t p, p ∈ glob base pd pf t → p ≠ []) as Hglob.
    { intros base pd pf t p (d & f & -> & _)%glob_elem []%app_eq_nil. done. }
    apply Forall_forall. intros r [[_ Hr]|[[_ Hr]|[_ Hr]]]%split_table_elem.
    - destruct (compute_split_paths_test c sp _ Hsp Hr) as (d & f & ->).
      cbn. intros []%app_eq_nil. done.
    - apply Hvalid in Hr as [(p & -> & _)|(p & -> & Hp)].
      + apply parts_join_nonempty, Hwd.
      + exact (Hglob _ _ _ _ _ Hp).
    - apply Htrain in Hr as [(p & -> & _)|(p & -> & Hp & _)].
      + apply parts_join_nonempty, Hwd.
      + exact (Hglob _ _ _ _ _ Hp). }
  destruct (mapM_total
              (fun r => s ← slugify_file_name (sr_relpath r);
                        mret (MetaRow (sr_relpath r) (sr_split r) s
                                (get_subsample_key filename_to_int_hash proc s)
                                (apply_label (sr_relpath r)))) rows) as [table Htable].
  { eapply Forall_impl; [exact Hparts|]. intros r [s Hs]%slugify_file_name_returns.
    rewrite Hs. eexists. reflexivity. }
  exists table. split; [exact Htable|].
  apply mapM_ok, Forall2_length in Htable. congruence.
Qed.

End MetadataReturns.

(** A blank line inside [validation_list.txt], with [.] as the train
    working directory: the joined path [./] has no parts. *)
Example metadata_blank_line :
  get_process_metadata (fun _ : unit => adler32) tt
    (Corpus "/w/test" [] "." [("off", "a.wav")]
            (Some ("off/a.wav" +:+ String "010" (String "010" "off/b.wav"))) (Some ""))
  = Raise TypeError.
Proof. vm_compute. reflexivity. Qed.

(** ** Instances on [corpus_both_lists] and on small working directories *)

(** [get_split_paths_relative_lists] on [corpus_both_lists]. *)
Lemma get_split_paths_relative_lists_witness :
  ∃ rows, get_split_paths corpus_both_lists = Ok rows.
Proof.
  apply (get_split_paths_relative_lists corpus_both_lists ["off/a.wav"] ["off/b.wav"]).
  - repeat constructor; done.
  - reflexivity.
  - reflexivity.
  - repeat constructor.
Defined.


(** [train_row_once] on [off/c.wav], which neither list names. *)
Lemma train_row_once_witness :
  ∃ rows, get_split_paths corpus_both_lists = Ok rows
    ∧ filter (fun r => sr_relpath r = Str "/w/gen/off/c.wav") rows
      = [SplitRow (Str "/w/gen/off/c.wav") "train"].
Proof.
  destruct (get_split_paths corpus_both_lists) as [rows|e] eqn:Hrows;
    [|vm_compute in Hrows; discriminate].
  exists rows. split; [reflexivity|].
  apply (train_row_once corpus_both_lists rows ["off/a.wav"] ["off/b.wav"] "off/c.wav").
  - repeat constructor; done.
  - reflexivity.
  - reflexivity.
  - apply list_elem_of_In. vm_compute. tauto.
  - intros Hin%list_elem_of_In. vm_compute in Hin. intuition discriminate.
  - intros Hin%list_elem_of_In. vm_compute in Hin. intuition discriminate.
  - exact Hrows.
Defined.


(** [test_rows] on a file of the silence folder of the test set. *)
Lemma test_rows_witness :
  ∃ rows, get_split_paths corpus_both_lists = Ok rows
    ∧ SplitRow (PosixPath ["/"; "w"; "test"; "test"; "_silence_"; "s.wav"]) "test" ∈ rows.
Proof.
  destruct (get_split_paths corpus_both_lists) as [rows|e] eqn:Hrows;
    [|vm_compute in Hrows; discriminate].
  exists rows. split; [reflexivity|].
  apply (test_rows corpus_both_lists rows _ Hrows). exists "_silence_", "s.wav".
  split; [|split; reflexivity]. apply list_elem_of_In. vm_compute. tauto.
Defined.

(** [metadata_row_fields] on [bed/d.wav], a train file of a folder that is
    no target word. *)
Lemma metadata_row_fields_witness :
  ∃ table, get_process_metadata (fun _ : unit => adler32) tt corpus_both_lists = Ok table
    ∧ ∀ m, m ∈ table → relpath m = Str "/w/gen/bed/d.wav" →
        slug m = "bed-d" ∧ label m = "_unknown_".
Proof.
  destruct (get_process_metadata (fun _ : unit => adler32) tt corpus_both_lists)
    as [table|e] eqn:Htable; [|vm_compute in Htable; discriminate].
  exists table. split; [reflexivity|]. intros m Hm Hrel.
  destruct (metadata_row_fields (fun _ : unit => adler32) tt corpus_both_lists table m
              "bed" "d" "wav" Htable Hm) as (Hslug & _ & Hlabel).
  - split; [discriminate|reflexivity].
  - discriminate.
  - split; [reflexivity|]. eexists _, _. split; [reflexivity|discriminate].
  - split; reflexivity.
  - left. exact Hrel.
  - split; [exact Hslug|exact Hlabel].
Defined.

(** [silence_clip_names] on the recording [running_tap.wav]. *)
Lemma silence_clip_names_witness :
  Forall (fun kv =>
            ∃ start, let filename := "running_tap" +:+ "-" +:+ str_of_int start +:+ ".wav" in
              kv.1 = OsPath.join "/w/gen/_silence_" [filename]
              ∧ kv.2 = Sound (slice [1; 2; 3; 4; 5; 6; 7; 8] start (start + 4)) 4
              ∧ glob_wav filename = true
              ∧ glob_running_tap_wav filename = true)
         [("/w/gen/_silence_/running_tap-0.wav", Sound [1; 2; 3; 4] 4);
          ("/w/gen/_silence_/running_tap-2.wav", Sound [3; 4; 5; 6] 4)].
Proof.
  apply (silence_clip_names "/w/gen/_silence_" "/w/speech" "running_tap"
           (Sound [1; 2; 3; 4; 5; 6; 7; 8] 4)).
  - split; [reflexivity|]. eexists _, _. split; [reflexivity|discriminate].
  - vm_compute. reflexivity.
Defined.

(** [run_frame] on a file of the working directory that [run] has no
    business with. *)
Lemma run_frame_witness :
  let corpus :=
    TrainCorpus [("pink_noise.wav", Sound [1; 2; 3; 4; 5; 6; 7; 8] 4)]
                [("off", true); ("validation_list.txt", false)] in
  let st := WorkdirState {["/w/gen"]} {["/w/gen/notes.wav" := Sound [7; 7] 2]} ∅ false in
  let st' := (run "/w/gen" "/w/speech" corpus st).2 in
  files st' !! "/w/gen/notes.wav" = Some (Sound [7; 7] 2)
  ∧ links st' !! "/w/gen/notes.wav" = None.
Proof.
  intros corpus st st'.
  destruct (run_frame "/w/gen" "/w/speech" corpus st "/w/gen/notes.wav")
    as (Hfiles & Hlinks & _).
  - intros audio_path snd start Hin%list_elem_of_In.
    vm_compute in Hin. destruct Hin as [[= <- <-]|[]].
    intros E. vm_compute in E. discriminate E.
  - intros name is_dir Hin%list_elem_of_In. vm_compute in Hin.
    destruct Hin as [[= <- <-]|[[= <- <-]|[]]]; discriminate.
  - split; [exact Hfiles|exact Hlinks].
Defined.

(** [rows_and_files] on [corpus_both_lists]: the line of the validation
    list is a row. *)
Lemma rows_and_files_witness :
  ∃ rows, get_split_paths corpus_both_lists = Ok rows
    ∧ SplitRow (Str "/w/gen/off/a.wav") "valid" ∈ rows.
Proof.
  destruct (get_split_paths corpus_both_lists) as [rows|e] eqn:Hrows;
    [|vm_compute in Hrows; discriminate].
  exists rows. split; [reflexivity|].
  destruct (rows_and_files corpus_both_lists rows ["off/a.wav"] Hrows eq_refl) as [Hvalid _].
  apply (Hvalid "off/a.wav"). left.
Defined.

(** [metadata_returns] on [corpus_both_lists]: seven rows. *)
Lemma metadata_returns_witness :
  ∃ table, get_process_metadata (fun _ : unit => adler32) tt corpus_both_lists = Ok table
           ∧ length table = 7%nat.
Proof.
  destruct (get_split_paths corpus_both_lists) as [rows|e] eqn:Hrows;
    [|vm_compute in Hrows; discriminate].
  destruct (metadata_returns (fun _ : unit => adler32) tt corpus_both_lists rows)
    as (table & Htable & Hlen); [discriminate|exact Hrows|].
  exists table. split; [exact Htable|]. rewrite Hlen.
  vm_compute in Hrows. injection Hrows as <-. reflexivity.
Defined.

(** [train_rows_nodup] on [corpus_both_lists]. *)
Lemma train_rows_nodup_witness :
  ∃ rows, get_split_paths corpus_both_lists = Ok rows
    ∧ NoDup (sr_relpath <$> filter (fun r => sr_split r = "train") rows).
Proof.
  destruct (get_split_paths corpus_both_lists) as [rows|e] eqn:Hrows;
    [|vm_compute in Hrows; discriminate].
  exists rows. split; [reflexivity|].
  apply (train_rows_nodup corpus_both_lists rows); [repeat constructor; done|exact Hrows].
Defined.
